(** * study-material: the Supabase gateway of [src/js/supabase.js]

    A shallow embedding of the gateway and the properties its
    specification states about it.

    The gateway is glue around the Supabase SDK, so the embedding has three
    layers:
    - the values that cross the SDK boundary (JSON rows, SDK responses);
    - the gateway functions themselves, written in a small monad [Prog]
      whose only effect is "issue one request to the outside world and
      wait for its answer" (the [await] of the source);
    - interpreters of [Prog]: against an arbitrary backend (to reason about
      which requests are issued and what is returned whatever the backend
      answers), and against an in-memory relational store (to reason about
      the state the requests leave behind). *)

From stdpp Require Import gmap strings list fin_maps pretty.
From Stdlib Require Import ZArith Lia Ascii.
From Stdlib Require String.

Local Open Scope Z_scope.

(* ===================================================================== *)
(** * JavaScript values *)
(* ===================================================================== *)

(** The scalar values found in the objects handed to and received from the
    SDK.  Numbers are the integral ones.  A timestamp travels as an
    ISO-8601 string; [VTime t] stands for the string that denotes the
    instant [t], in milliseconds since the epoch (what [toISOString]
    prints and [new Date(string)] reads back). *)
Inductive Value : Type :=
| VUndefined
| VNull
| VBool (b : bool)
| VNum (n : Z)
| VStr (s : string)
| VTime (t : Z).

Global Instance Value_eq_dec : EqDecision Value.
Proof. solve_decision. Defined.

(** An object literal such as [{ is_banned: true }]. *)
Abbreviation Row := (gmap string Value).

(** ToBoolean. *)
Definition truthy (v : Value) : bool :=
  match v with
  | VUndefined | VNull => false
  | VBool b => b
  | VNum n => negb (n =? 0)
  | VStr s => negb (String.eqb s "")
  | VTime _ => true
  end.

(** [row.col]: a missing property reads as [undefined]. *)
Definition field (row : Row) (col : string) : Value :=
  default VUndefined (row !! col).

(** [x ?? null]-style embedding of an optional string as a JSON value. *)
Definition str_or (d : Value) (o : option string) : Value :=
  match o with Some s => VStr s | None => d end.

(* ===================================================================== *)
(** * Dates *)
(* ===================================================================== *)

(** A [Date] holds a time value, or NaN ("Invalid Date"). *)
Abbreviation Date := (option Z).

Definition msPerDay : Z := 86400000.
Definition Day (t : Z) : Z := t / msPerDay.
Definition TimeWithinDay (t : Z) : Z := t mod msPerDay.
Definition MakeDate (day time : Z) : Z := day * msPerDay + time.

Definition TimeClip (t : Z) : Date :=
  if Z.abs t <=? 8640000000000000 then Some t else None.

(** What the page's runtime fixes: the time zone ([LocalTZA t isUTC] of
    ECMAScript, the offset of local time from UTC around [t]) and the
    locale's date format. *)
Record Runtime : Type := {
  LocalTZA : Z -> bool -> Z;
  toLocaleDateString : Z -> string
}.

Section Dates.
Variable rt : Runtime.

Definition LocalTime (t : Z) : Z := t + LocalTZA rt t true.
Definition UTC (t : Z) : Z := t - LocalTZA rt t false.

(** [d.setDate(d.getDate() + n)].  [setDate] rebuilds the date from
    [MakeDay(year, month, dayOfMonth + n)], and [MakeDay] counts days from
    the first of the month, so the local day number moves by [n] and the
    local time of day is kept; [n] is NaN when [parseInt] found no
    number. *)
Definition Date_addDays (d : Date) (n : option Z) : Date :=
  match d, n with
  | Some t, Some n =>
      let lt := LocalTime t in
      TimeClip (UTC (MakeDate (Day lt + n) (TimeWithinDay lt)))
  | _, _ => None
  end.

(** [d.setHours(0, 0, 0, 0)]. *)
Definition Date_setHours0 (d : Date) : Date :=
  match d with
  | Some t => TimeClip (UTC (MakeDate (Day (LocalTime t)) 0))
  | None => None
  end.

(** [new Date(v).toLocaleDateString()] for a timestamp [t]. *)
Definition Date_toLocaleDateString (d : Date) : string :=
  match d with
  | Some t => toLocaleDateString rt t
  | None => "Invalid Date"
  end.
End Dates.

Arguments Date_addDays : simpl never.
Arguments Date_setHours0 : simpl never.

(** [a >= b] on dates: a comparison of time values, false on NaN. *)
Definition Date_ge (a b : Date) : bool :=
  match a, b with
  | Some x, Some y => y <=? x
  | _, _ => false
  end.

(** [new Date(v)] for a value read from a row. *)
Definition Date_of_Value (v : Value) : Date :=
  match v with
  | VTime t => Some t
  | VNum n => TimeClip n
  | VNull => Some 0
  | VBool b => Some (if b then 1 else 0)
  | VUndefined => None
  | VStr _ => None   (* a string that is not a timestamp *)
  end.

(* ===================================================================== *)
(** * parseInt *)
(* ===================================================================== *)

(** An integer prints as its decimal digits as long as its size is below
    10^21; from there on a number prints in exponent form ("1e+21",
    "-2.5e+30"). *)
Definition prints_in_full (n : Z) : bool := Z.abs n <? 10 ^ 21.

(** The sign and the one digit an exponent form starts with. *)
Definition is_leading_digit (lead : Z) : bool :=
  (1 <=? Z.abs lead) && (Z.abs lead <=? 9).

(** The [duration] argument of [banUser]: absent ([null], the default), a
    number, or a string (a form field).  A number is an integer that prints
    in full, or a finite number of size 10^21 or more, given by the sign and
    the leading digit of its exponent form, which is all that [banUser] ever
    looks at.  Fractions, NaN and the infinities are not day-counts and are
    left out. *)
Inductive Duration : Type :=
| DurNull
| DurNum (n : Z) (full : Is_true (prints_in_full n))
| DurExp (lead : Z) (digit : Is_true (is_leading_digit lead))
| DurStr (s : string).

Definition Duration_truthy (d : Duration) : bool :=
  match d with
  | DurNull => false
  | DurNum n _ => negb (n =? 0)
  | DurExp _ _ => true
  | DurStr s => negb (String.eqb s "")
  end.

(** Strings are read one code unit per character. *)
Module ParseInt.
Definition is_space (c : ascii) : bool :=
  let n := nat_of_ascii c in
  (Nat.eqb n 32 || Nat.eqb n 160 || (Nat.leb 9 n && Nat.leb n 13))%bool.

Fixpoint trim_start (s : string) : string :=
  match s with
  | String c s' => if is_space c then trim_start s' else s
  | EmptyString => s
  end.

Definition digit (radix : Z) (c : ascii) : option Z :=
  let n := Z.of_nat (nat_of_ascii c) in
  let v := if (48 <=? n) && (n <=? 57) then Some (n - 48)
           else if (97 <=? n) && (n <=? 102) then Some (n - 87)
           else if (65 <=? n) && (n <=? 70) then Some (n - 55)
           else None in
  match v with
  | Some d => if d <? radix then Some d else None
  | None => None
  end.

(** The value of the longest prefix of digits; [None] when it is empty. *)
Fixpoint digits (radix : Z) (acc : option Z) (s : string) : option Z :=
  match s with
  | String c s' =>
      match digit radix c with
      | Some d => digits radix (Some (default 0 acc * radix + d)) s'
      | None => acc
      end
  | EmptyString => acc
  end.

Definition unsigned (s : string) : option Z :=
  match s with
  | String "0" (String "x" s') | String "0" (String "X" s') =>
      digits 16 None s'
  | _ => digits 10 None s
  end.

Definition of_string (s : string) : option Z :=
  match trim_start s with
  | String "-" s' => Z.opp <$> unsigned s'
  | String "+" s' => unsigned s'
  | s' => unsigned s'
  end.
End ParseInt.

(** [parseInt(duration)]; [None] is NaN.  A number is first printed: an
    integer that prints in full is read back whole, and of an exponent form
    only the sign and the leading digit are read, up to the [.] or the [e]
    ([parseInt(1e21)] is 1).  The integer read off a string is kept exact
    here; JavaScript rounds it to the nearest double from 2^53 on, a size at
    which a day-count gives no valid date either way. *)
Definition parseInt (d : Duration) : option Z :=
  match d with
  | DurNull => None          (* parseInt("null") *)
  | DurNum n _ => Some n
  | DurExp lead _ => Some lead
  | DurStr s => ParseInt.of_string s
  end.

(* ===================================================================== *)
(** * The SDK boundary *)
(* ===================================================================== *)

Record Error : Type := { message : string }.

Record User : Type := { user_id : string }.

(** [{ user, session }] of the auth responses. *)
Record AuthData : Type := { user : option User; session : option string }.

(** [{ data, error }] of [auth.signUp], [auth.signInWithPassword] and
    [auth.getUser]: [data] is always an object. *)
Record AuthResponse : Type := {
  auth_data : AuthData;
  auth_error : option Error
}.

(** The response of a table, storage or remote-procedure request: the SDK
    types it as a union of [{ data, error: null }] and
    [{ data: null, error }]. *)
Inductive PgReply (T : Type) : Type :=
| PgData (d : option T)
| PgError (e : Error).
Arguments PgData {T} d.
Arguments PgError {T} e.

Definition pg_data {T} (r : PgReply T) : option T :=
  match r with PgData d => d | PgError _ => None end.
Definition pg_error {T} (r : PgReply T) : option Error :=
  match r with PgData _ => None | PgError e => Some e end.

(** What [get_user_ban_status] reports, as far as [signIn] reads it. *)
Record BanStatus : Type := {
  is_active : bool;
  reason : string;
  ban_until : option Z
}.

Record File : Type := { name : string }.

(** [.eq(column, value)]. *)
Inductive Filter : Type := Eq_ (col : string) (v : Value).

(** [.order(column, { ascending })]. *)
Record Order : Type := { order_by : string; ascending : bool }.

(** Every request the gateway can issue: those that go to the backend
    through the client handle, and those that ask the page itself (clock,
    location, console). *)
Inductive Call : Type :=
| AuthSignUp (email password full_name : string)
| AuthSignInWithPassword (email password : string)
| AuthSignOut
| AuthGetUser
| RpcGetUserProfile (userId : string)
| RpcCheckIsAdmin
| RpcGetUserBanStatus
| RpcGetAllUsersAdmin
| FromSelect (table : string) (filters : list Filter) (order : option Order)
| FromInsert (table : string) (row : Row)
| FromUpdate (table : string) (updates : Row) (filters : list Filter)
| FromDelete (table : string) (filters : list Filter)
| StorageUpload (bucket fileName : string) (file : File) (upsert : bool)
| StorageGetPublicUrl (bucket fileName : string)
| DateNow
| LocationPathname
| LocationSetHref (href : string)
| ConsoleError (label : string) (e : Error).

Definition Reply (c : Call) : Type :=
  match c with
  | AuthSignUp _ _ _ | AuthSignInWithPassword _ _ | AuthGetUser => AuthResponse
  | AuthSignOut => option Error
  | RpcGetUserProfile _ => PgReply Row
  | RpcCheckIsAdmin => PgReply Value
  | RpcGetUserBanStatus => PgReply BanStatus
  | RpcGetAllUsersAdmin => PgReply (list Row)
  | FromSelect _ _ _ | FromInsert _ _ | FromUpdate _ _ _ | FromDelete _ _ =>
      PgReply (list Row)
  | StorageUpload _ _ _ _ => PgReply string
  | StorageGetPublicUrl _ _ => string
  | DateNow => Z
  | LocationPathname => string
  | LocationSetHref _ => unit
  | ConsoleError _ _ => unit
  end.

(** The error a reply carries, if any. *)
Definition reply_error (c : Call) : Reply c -> option Error :=
  match c with
  | AuthSignUp _ _ _ | AuthSignInWithPassword _ _ | AuthGetUser => auth_error
  | AuthSignOut => fun e => e
  | RpcGetUserProfile _ => pg_error
  | RpcCheckIsAdmin => pg_error
  | RpcGetUserBanStatus => pg_error
  | RpcGetAllUsersAdmin => pg_error
  | FromSelect _ _ _ | FromInsert _ _ | FromUpdate _ _ _ | FromDelete _ _ =>
      pg_error
  | StorageUpload _ _ _ _ => pg_error
  | StorageGetPublicUrl _ _ | DateNow | LocationPathname | LocationSetHref _
  | ConsoleError _ _ => fun _ => None
  end.

(* ===================================================================== *)
(** * Programs that await requests *)
(* ===================================================================== *)

Inductive Exn : Type := RangeError (msg : string).

(** An async function body: it returns, throws (the promise rejects), or
    awaits the reply to one request and goes on. *)
Inductive Prog (A : Type) : Type :=
| Ret (a : A)
| Throw (e : Exn)
| Do (c : Call) (k : Reply c -> Prog A).
Arguments Ret {A} a.
Arguments Throw {A} e.
Arguments Do {A} c k.

Fixpoint bind {A B} (p : Prog A) (f : A -> Prog B) : Prog B :=
  match p with
  | Ret a => f a
  | Throw e => Throw e
  | Do c k => Do c (fun r => bind (k r) f)
  end.

Definition await (c : Call) : Prog (Reply c) := Do c Ret.

Notation "x <- p ;; q" := (bind p (fun x => q))
  (at level 100, p at next level, right associativity).
Notation "p ;;; q" := (bind p (fun _ => q))
  (at level 100, right associativity).

(* ===================================================================== *)
(** * The gateway *)
(* ===================================================================== *)

(** The handle [createClient] returns. *)
Record Client : Type := { client_url : string; client_key : string }.

(** What the page provides before the script runs: the two configuration
    values and the SDK's global. *)
Record Window : Type := {
  window_SUPABASE_URL : option string;
  window_SUPABASE_ANON_KEY : option string;
  window_supabase : bool
}.

Definition SUPABASE_URL (window : Window) : string :=
  default "" (window_SUPABASE_URL window).
Definition SUPABASE_ANON_KEY (window : Window) : string :=
  default "" (window_SUPABASE_ANON_KEY window).

Definition createClient (url key : string) : Client :=
  {| client_url := url; client_key := key |}.

(** [initSupabase]: the new value of the module's [supabase] variable (which
    is also what the function returns), from its current value. *)
Definition initSupabase (window : Window) (supabase : option Client)
  : option Client :=
  if truthy (VStr (SUPABASE_URL window))
     && truthy (VStr (SUPABASE_ANON_KEY window))
     && window_supabase window
  then Some (createClient (SUPABASE_URL window) (SUPABASE_ANON_KEY window))
  else supabase.

(** [{ data, error }]; a property left out of the literal is [None]. *)
Record Result (T : Type) : Type := { data : option T; error : option Error }.
Arguments data {T} r.
Arguments error {T} r.

(** [{ url, error }] of the upload functions. *)
Record UploadResult : Type := {
  url : option string;
  upload_error : option Error
}.

Record VisitStats : Type := { total : nat; today : nat; thisWeek : nat }.

Definition local_error {T} (msg : string) : Result T :=
  {| data := None; error := Some {| message := msg |} |}.

(** The object a table request resolves to, returned as it is. *)
Definition pg_result {T} (r : PgReply T) : Result T :=
  {| data := pg_data r; error := pg_error r |}.

Module FileName.
Definition is_safe (c : ascii) : bool :=
  let n := nat_of_ascii c in
  ((Nat.leb 97 n && Nat.leb n 122) || (Nat.leb 65 n && Nat.leb n 90)
   || (Nat.leb 48 n && Nat.leb n 57) || Nat.eqb n 46)%bool.

(** [name.replace(/[^a-zA-Z0-9.]/g, '_')]. *)
Fixpoint sanitize (s : string) : string :=
  match s with
  | EmptyString => EmptyString
  | String c s' => String (if is_safe c then c else "_"%char) (sanitize s')
  end.

(** [name.split('.').pop()], reading [cur] as the segment in progress. *)
Fixpoint split_pop (cur s : string) : string :=
  match s with
  | EmptyString => cur
  | String c s' =>
      if Ascii.eqb c "."%char then split_pop "" s'
      else split_pop (cur +:+ String c "") s'
  end.
End FileName.

Section Gateway.
Variable rt : Runtime.

(** The module-level [let supabase]. *)
Variable supabase : option Client.

Definition signUp (email password fullName : string)
  : Prog (Result AuthData) :=
  match supabase with
  | None => Ret (local_error "Supabase not configured")
  | Some _ =>
      r <- await (AuthSignUp email password fullName) ;;
      Ret {| data := Some (auth_data r); error := auth_error r |}
  end.

Definition signOut : Prog (Result AuthData) :=
  match supabase with
  | None => Ret (local_error "Supabase not configured")
  | Some _ =>
      e <- await AuthSignOut ;;
      Ret {| data := None; error := e |}
  end.

Definition handleLogout : Prog unit :=
  signOut ;;;
  await (LocationSetHref "/").

Definition getCurrentUser : Prog (option User) :=
  match supabase with
  | None => Ret None
  | Some _ =>
      r <- await AuthGetUser ;;
      Ret (user (auth_data r))
  end.

Definition getUserProfile (userId : string) : Prog (option Row) :=
  match supabase with
  | None => Ret None
  | Some _ =>
      r <- await (RpcGetUserProfile userId) ;;
      match pg_error r with
      | Some e => await (ConsoleError "Error fetching profile:" e) ;;; Ret None
      | None => Ret (pg_data r)
      end
  end.

Definition updateProfile (updates : Row) : Prog (Result (list Row)) :=
  match supabase with
  | None => Ret (local_error "Supabase not configured")
  | Some _ =>
      u <- getCurrentUser ;;
      match u with
      | None => Ret (local_error "Not authenticated")
      | Some u =>
          r <- await (FromUpdate "profiles" updates
                        [Eq_ "id" (VStr (user_id u))]) ;;
          Ret (pg_result r)
      end
  end.

Definition isAdmin : Prog bool :=
  match supabase with
  | None => Ret false
  | Some _ =>
      r <- await RpcCheckIsAdmin ;;
      match pg_error r with
      | Some e => await (ConsoleError "Error checking admin:" e) ;;; Ret false
      | None => Ret (bool_decide (pg_data r = Some (VBool true)))
      end
  end.

Definition checkUserBan : Prog (option BanStatus) :=
  match supabase with
  | None => Ret None
  | Some _ =>
      r <- await RpcGetUserBanStatus ;;
      match pg_error r with
      | Some e => await (ConsoleError "Error checking ban:" e) ;;; Ret None
      | None => Ret (pg_data r)
      end
  end.

Definition trackVisit (userId : option string) : Prog unit :=
  match supabase with
  | None => Ret tt
  | Some _ =>
      path <- await LocationPathname ;;
      now <- await DateNow ;;
      await (FromInsert "site_visits"
               (<["user_id" := str_or VNull userId]>
                (<["page_path" := VStr path]>
                 (<["visited_at" := VTime now]> ∅)))) ;;;
      Ret tt
  end.

(** The message of the suspension error of [signIn]. *)
Definition suspended_message (banData : BanStatus) : string :=
  "Your account has been suspended. Reason: " +:+ reason banData +:+
  match ban_until banData with
  | Some until => " Until: " +:+ Date_toLocaleDateString rt (Some until)
  | None => " (Permanent)"
  end.

Definition signIn (email password : string) : Prog (Result AuthData) :=
  match supabase with
  | None => Ret (local_error "Supabase not configured")
  | Some _ =>
      r <- await (AuthSignInWithPassword email password) ;;
      let data := auth_data r in
      let error := auth_error r in
      match error, user data with
      | None, Some u =>
          let proceed :=
            trackVisit (Some (user_id u)) ;;;
            Ret {| data := Some data; error := error |} in
          banData <- checkUserBan ;;
          match banData with
          | Some b =>
              if is_active b then
                await AuthSignOut ;;;
                Ret (local_error (suspended_message b))
              else proceed
          | None => proceed
          end
      | _, _ => Ret {| data := Some data; error := error |}
      end
  end.

Definition getCategories : Prog (list Row) :=
  match supabase with
  | None => Ret []
  | Some _ =>
      r <- await (FromSelect "categories" []
                    (Some {| order_by := "name"; ascending := true |})) ;;
      Ret (default [] (pg_data r))
  end.

Definition addCategory (name slug icon description : Value)
  : Prog (Result (list Row)) :=
  match supabase with
  | None => Ret (local_error "Supabase not configured")
  | Some _ =>
      r <- await (FromInsert "categories"
                    (<["name" := name]>
                     (<["slug" := slug]>
                      (<["icon" := icon]>
                       (<["description" := description]> ∅))))) ;;
      Ret (pg_result r)
  end.

Definition updateCategory (id : Value) (updates : Row)
  : Prog (Result (list Row)) :=
  match supabase with
  | None => Ret (local_error "Supabase not configured")
  | Some _ =>
      r <- await (FromUpdate "categories" updates [Eq_ "id" id]) ;;
      Ret (pg_result r)
  end.

Definition deleteCategory (id : Value) : Prog (Result (list Row)) :=
  match supabase with
  | None => Ret (local_error "Supabase not configured")
  | Some _ =>
      r <- await (FromDelete "categories" [Eq_ "id" id]) ;;
      Ret (pg_result r)
  end.

Definition getMaterials : Prog (list Row) :=
  match supabase with
  | None => Ret []
  | Some _ =>
      r <- await (FromSelect "materials" [Eq_ "status" (VStr "published")]
                    (Some {| order_by := "created_at"; ascending := false |})) ;;
      Ret (default [] (pg_data r))
  end.

Definition getAllMaterials : Prog (list Row) :=
  match supabase with
  | None => Ret []
  | Some _ =>
      r <- await (FromSelect "materials" []
                    (Some {| order_by := "created_at"; ascending := false |})) ;;
      Ret (default [] (pg_data r))
  end.

Definition addMaterial (title description imageUrl telegramLink category : Value)
  : Prog (Result (list Row)) :=
  match supabase with
  | None => Ret (local_error "Supabase not configured")
  | Some _ =>
      u <- getCurrentUser ;;
      r <- await (FromInsert "materials"
                    (<["title" := title]>
                     (<["description" := description]>
                      (<["image_url" := imageUrl]>
                       (<["telegram_link" := telegramLink]>
                        (<["category" := category]>
                         (<["created_by" := str_or VUndefined (user_id <$> u)]>
                          (<["status" := VStr "published"]> ∅)))))))) ;;
      Ret (pg_result r)
  end.

Definition updateMaterial (id : Value) (updates : Row)
  : Prog (Result (list Row)) :=
  match supabase with
  | None => Ret (local_error "Supabase not configured")
  | Some _ =>
      r <- await (FromUpdate "materials" updates [Eq_ "id" id]) ;;
      Ret (pg_result r)
  end.

Definition deleteMaterial (id : Value) : Prog (Result (list Row)) :=
  match supabase with
  | None => Ret (local_error "Supabase not configured")
  | Some _ =>
      r <- await (FromDelete "materials" [Eq_ "id" id]) ;;
      Ret (pg_result r)
  end.

Definition upload_failed (e : Error) : UploadResult :=
  {| url := None; upload_error := Some e |}.

(** [bucket] is ['material-images'] when the caller leaves it out. *)
Definition uploadImage (file : File) (bucket : option string)
  : Prog UploadResult :=
  let bucket := default "material-images" bucket in
  match supabase with
  | None => Ret (upload_failed {| message := "Supabase not configured" |})
  | Some _ =>
      now <- await DateNow ;;
      let fileName := pretty now +:+ "-" +:+ FileName.sanitize (name file) in
      r <- await (StorageUpload bucket fileName file false) ;;
      match pg_error r with
      | Some e => Ret (upload_failed e)
      | None =>
          publicUrl <- await (StorageGetPublicUrl bucket fileName) ;;
          Ret {| url := Some publicUrl; upload_error := None |}
      end
  end.

Definition uploadAvatar (file : File) : Prog UploadResult :=
  match supabase with
  | None => Ret (upload_failed {| message := "Supabase not configured" |})
  | Some _ =>
      u <- getCurrentUser ;;
      match u with
      | None => Ret (upload_failed {| message := "Not authenticated" |})
      | Some u =>
          now <- await DateNow ;;
          let fileName :=
            user_id u +:+ "-" +:+ pretty now +:+ "." +:+
            FileName.split_pop "" (name file) in
          r <- await (StorageUpload "profile-avatars" fileName file true) ;;
          match pg_error r with
          | Some e => Ret (upload_failed e)
          | None =>
              publicUrl <- await (StorageGetPublicUrl "profile-avatars"
                                    fileName) ;;
              updateProfile {["avatar_url" := VStr publicUrl]} ;;;
              Ret {| url := Some publicUrl; upload_error := None |}
          end
      end
  end.

Definition getAllUsers : Prog (list Row) :=
  match supabase with
  | None => Ret []
  | Some _ =>
      r <- await RpcGetAllUsersAdmin ;;
      match pg_error r with
      | Some e => await (ConsoleError "Error fetching users:" e) ;;; Ret []
      | None => Ret (default [] (pg_data r))
      end
  end.

Definition updateUserRole (userId role : Value) : Prog (Result (list Row)) :=
  match supabase with
  | None => Ret (local_error "Supabase not configured")
  | Some _ =>
      r <- await (FromUpdate "profiles" {["role" := role]}
                    [Eq_ "id" userId]) ;;
      Ret (pg_result r)
  end.

(** [banUntil.toISOString()]: throws on an invalid date. *)
Definition toISOString (d : Date) : Prog Value :=
  match d with
  | Some t => Ret (VTime t)
  | None => Throw (RangeError "Invalid time value")
  end.

(** The row [banUser] inserts. *)
Definition ban_record (userId : string) (admin : option User)
    (reason : string) (banType : option string) (banUntil : Value) : Row :=
  <["user_id" := VStr userId]>
  (<["banned_by" := str_or VUndefined (user_id <$> admin)]>
   (<["reason" := VStr reason]>
    (<["ban_type" := str_or VUndefined banType]>
     (<["ban_until" := banUntil]>
      (<["is_active" := VBool true]> ∅))))).

(** [banType] is [None] when the caller passes [undefined]. *)
Definition banUser (userId reason : string) (banType : option string)
    (duration : Duration) : Prog (Result (list Row)) :=
  match supabase with
  | None => Ret (local_error "Supabase not configured")
  | Some _ =>
      admin <- getCurrentUser ;;
      banUntil <-
        (if bool_decide (banType = Some "temporary") && Duration_truthy duration
         then
           now <- await DateNow ;;
           toISOString (Date_addDays rt (Some now) (parseInt duration))
         else Ret VNull) ;;
      r <- await (FromInsert "user_bans"
                    (ban_record userId admin reason banType banUntil)) ;;
      let error := pg_error r in
      (match error with
       | None =>
           await (FromUpdate "profiles" {["is_banned" := VBool true]}
                    [Eq_ "id" (VStr userId)]) ;;;
           Ret tt
       | Some _ => Ret tt
       end) ;;;
      Ret {| data := None; error := error |}
  end.

Definition unbanUser (userId : string) : Prog (Result (list Row)) :=
  match supabase with
  | None => Ret (local_error "Supabase not configured")
  | Some _ =>
      await (FromUpdate "user_bans" {["is_active" := VBool false]}
               [Eq_ "user_id" (VStr userId); Eq_ "is_active" (VBool true)]) ;;;
      r <- await (FromUpdate "profiles" {["is_banned" := VBool false]}
                    [Eq_ "id" (VStr userId)]) ;;
      Ret (pg_result r)
  end.

Definition getUserBanHistory (userId : string) : Prog (list Row) :=
  match supabase with
  | None => Ret []
  | Some _ =>
      r <- await (FromSelect "user_bans" [Eq_ "user_id" (VStr userId)]
                    (Some {| order_by := "created_at"; ascending := false |})) ;;
      Ret (default [] (pg_data r))
  end.

(** [allVisits.filter(v => new Date(v.visited_at) >= since).length]. *)
Definition visits_since (since : Date) (allVisits : list Row) : nat :=
  length (filter (fun v => Date_ge (Date_of_Value (field v "visited_at")) since)
            allVisits).

Definition getVisitStats : Prog VisitStats :=
  match supabase with
  | None => Ret {| total := 0; today := 0; thisWeek := 0 |}
  | Some _ =>
      r <- await (FromSelect "site_visits" [] None) ;;
      let allVisits := pg_data r in
      now <- await DateNow ;;
      let today := Date_setHours0 rt (Some now) in
      now' <- await DateNow ;;
      let weekAgo := Date_addDays rt (Some now') (Some (-7)) in
      Ret {| total := default 0%nat (length <$> allVisits);
             today := default 0%nat (visits_since today <$> allVisits);
             thisWeek := default 0%nat (visits_since weekAgo <$> allVisits) |}
  end.

End Gateway.

(* ===================================================================== *)
(** * Running a program against a backend *)
(* ===================================================================== *)

(** Whatever answers the requests: a state and, for each request, the reply
    and the next state.  Nothing is assumed about the replies. *)
Record Backend (W : Type) : Type := {
  handle : forall c : Call, W -> Reply c * W
}.
Arguments handle {W} b c w.

(** One request together with the reply it got. *)
Record Event : Type := Ev { ev_call : Call; ev_reply : Reply ev_call }.

Inductive Outcome (A : Type) : Type :=
| Returned (a : A)
| Thrown (e : Exn).
Arguments Returned {A} a.
Arguments Thrown {A} e.

Record Run (W A : Type) : Type := {
  outcome : Outcome A;
  world : W;
  trace : list Event
}.
Arguments outcome {W A} r.
Arguments world {W A} r.
Arguments trace {W A} r.

Fixpoint run {W A} (b : Backend W) (p : Prog A) (w : W) : Run W A :=
  match p with
  | Ret a => {| outcome := Returned a; world := w; trace := [] |}
  | Throw e => {| outcome := Thrown e; world := w; trace := [] |}
  | Do c k =>
      let rw := handle b c w in
      let x := run b (k rw.1) rw.2 in
      {| outcome := outcome x; world := world x;
         trace := Ev c rw.1 :: trace x |}
  end.

Definition calls (tr : list Event) : list Call := ev_call <$> tr.

Definition ev_error (e : Event) : option Error :=
  reply_error (ev_call e) (ev_reply e).

(** Requests on one table, by kind. *)
Definition is_insert_into (table : string) (c : Call) : bool :=
  match c with
  | FromInsert t _ => String.eqb t table
  | _ => false
  end.

Definition is_update_of (table : string) (c : Call) : bool :=
  match c with
  | FromUpdate t _ _ => String.eqb t table
  | _ => false
  end.

Definition inserted_row (c : Call) : option Row :=
  match c with
  | FromInsert _ row => Some row
  | _ => None
  end.

(* ===================================================================== *)
(** * An in-memory backend *)
(* ===================================================================== *)

(** Modelled from the spec: the backend behind the SDK (its tables, accounts
    and object storage) is not part of the gateway's source.  This reference
    backend is used where a property speaks of the state the requests leave
    behind: tables are lists of rows, a filter [.eq(c, v)] keeps the rows
    whose column [c] holds [v], an update overwrites the given columns of
    every row the filters keep.  Requests to it never fail for reasons of
    their own (no network, no access rules), and its clock stands still, as
    under a test's fake timers. *)
Record Store : Type := {
  tables : gmap string (list Row);
  accounts : list (string * string * User);
  current : option User;
  objects : list (string * string);
  clock : Z;
  location : string
}.

Module Store.

Definition matches (row : Row) (f : Filter) : bool :=
  match f with Eq_ col v => bool_decide (row !! col = Some v) end.

Definition matches_all (fs : list Filter) (row : Row) : bool :=
  forallb (matches row) fs.

Definition rows (s : Store) (table : string) : list Row :=
  default [] (tables s !! table).

Definition with_rows (s : Store) (table : string) (rs : list Row) : Store :=
  {| tables := <[table := rs]> (tables s); accounts := accounts s;
     current := current s; objects := objects s; clock := clock s;
     location := location s |}.

Definition with_current (s : Store) (u : option User) : Store :=
  {| tables := tables s; accounts := accounts s; current := u;
     objects := objects s; clock := clock s; location := location s |}.

Definition select (fs : list Filter) (rs : list Row) : list Row :=
  filter (fun r => matches_all fs r = true) rs.

Definition update (updates : Row) (fs : list Filter) (rs : list Row)
  : list Row :=
  (fun r => if matches_all fs r then updates ∪ r else r) <$> rs.

Definition delete (fs : list Filter) (rs : list Row) : list Row :=
  filter (fun r => matches_all fs r = false) rs.

Definition Value_leb (a b : Value) : bool :=
  match a, b with
  | VStr x, VStr y => String.leb x y
  | VNum x, VNum y | VTime x, VTime y => x <=? y
  | _, _ => true
  end.

Fixpoint insert_sorted (le : Row -> Row -> bool) (r : Row) (rs : list Row)
  : list Row :=
  match rs with
  | [] => [r]
  | r' :: rs' => if le r r' then r :: rs else r' :: insert_sorted le r rs'
  end.

Definition sort (o : option Order) (rs : list Row) : list Row :=
  match o with
  | None => rs
  | Some o =>
      let le a b :=
        if ascending o
        then Value_leb (field a (order_by o)) (field b (order_by o))
        else Value_leb (field b (order_by o)) (field a (order_by o)) in
      foldr (insert_sorted le) [] rs
  end.

Definition find_account (s : Store) (email password : string) : option User :=
  snd <$> List.find (fun a => String.eqb a.1.1 email && String.eqb a.1.2 password)
            (accounts s).

Definition ban_status (row : Row) : BanStatus :=
  {| is_active := truthy (field row "is_active");
     reason := match field row "reason" with VStr r => r | _ => "" end;
     ban_until := match field row "ban_until" with
                  | VTime t => Some t
                  | _ => None
                  end |}.

Definition signed_in (u : option User) : AuthResponse :=
  {| auth_data := {| user := u; session := user_id <$> u |};
     auth_error := match u with
                   | Some _ => None
                   | None => Some {| message := "Invalid login credentials" |}
                   end |}.

Definition is_admin (s : Store) : bool :=
  match current s with
  | Some u =>
      match head (select [Eq_ "id" (VStr (user_id u))] (rows s "profiles")) with
      | Some r => bool_decide (r !! "role" = Some (VStr "admin"))
      | None => false
      end
  | None => false
  end.

Definition answer (c : Call) (s : Store) : Reply c * Store :=
  match c as c0 return Reply c0 * Store with
  | AuthSignUp email password _ =>
      let u := {| user_id := "user:" +:+ email |} in
      (signed_in (Some u),
       {| tables := tables s;
          accounts := (email, password, u) :: accounts s;
          current := Some u; objects := objects s; clock := clock s;
          location := location s |})
  | AuthSignInWithPassword email password =>
      let u := find_account s email password in
      (signed_in u, match u with Some _ => with_current s u | None => s end)
  | AuthSignOut => (@None Error, with_current s None)
  | AuthGetUser => (signed_in (current s), s)
  | RpcGetUserProfile userId =>
      (PgData (head (select [Eq_ "id" (VStr userId)] (rows s "profiles"))), s)
  | RpcCheckIsAdmin =>
      (PgData (Some (VBool (is_admin s))), s)
  | RpcGetUserBanStatus =>
      (PgData (u ← current s;
               ban_status <$>
                 head (select [Eq_ "user_id" (VStr (user_id u));
                               Eq_ "is_active" (VBool true)]
                         (rows s "user_bans"))), s)
  | RpcGetAllUsersAdmin => (PgData (Some (rows s "profiles")), s)
  | FromSelect table fs o =>
      (PgData (Some (sort o (select fs (rows s table)))), s)
  | FromInsert table row =>
      (PgData None, with_rows s table (rows s table ++ [row]))
  | FromUpdate table updates fs =>
      (PgData None, with_rows s table (update updates fs (rows s table)))
  | FromDelete table fs =>
      (PgData None, with_rows s table (delete fs (rows s table)))
  | StorageUpload bucket fileName _ _ =>
      (PgData (Some fileName),
       {| tables := tables s; accounts := accounts s; current := current s;
          objects := (bucket, fileName) :: objects s; clock := clock s;
          location := location s |})
  | StorageGetPublicUrl bucket fileName =>
      ("https://storage.example/" +:+ bucket +:+ "/" +:+ fileName, s)
  | DateNow => (clock s, s)
  | LocationPathname => (location s, s)
  | LocationSetHref href =>
      (tt, {| tables := tables s; accounts := accounts s; current := current s;
              objects := objects s; clock := clock s; location := href |})
  | ConsoleError _ _ => (tt, s)
  end.

Definition backend : Backend Store := {| handle := answer |}.

End Store.

(** A backend that refuses the requests picked by [bad] (a lost connection,
    an access rule) and leaves the store as it is; it answers the other
    requests as [backend] does. *)
Module Faulty.

Definition refusal : Error := {| message := "request failed" |}.

Definition refuse (c : Call) : option (Reply c) :=
  match c as c0 return option (Reply c0) with
  | AuthSignUp _ _ _ | AuthSignInWithPassword _ _ | AuthGetUser =>
      Some {| auth_data := {| user := None; session := None |};
              auth_error := Some refusal |}
  | AuthSignOut => Some (Some refusal)
  | RpcGetUserProfile _ => Some (PgError refusal)
  | RpcCheckIsAdmin => Some (PgError refusal)
  | RpcGetUserBanStatus => Some (PgError refusal)
  | RpcGetAllUsersAdmin => Some (PgError refusal)
  | FromSelect _ _ _ | FromInsert _ _ | FromUpdate _ _ _ | FromDelete _ _ =>
      Some (PgError refusal)
  | StorageUpload _ _ _ _ => Some (PgError refusal)
  | StorageGetPublicUrl _ _ | DateNow | LocationPathname | LocationSetHref _
  | ConsoleError _ _ => None
  end.

Definition answer (bad : Call -> bool) (c : Call) (s : Store)
  : Reply c * Store :=
  match (if bad c then refuse c else None) with
  | Some r => (r, s)
  | None => Store.answer c s
  end.

Definition backend (bad : Call -> bool) : Backend Store :=
  {| handle := answer bad |}.

End Faulty.

(* ===================================================================== *)
(** * Properties *)
(* ===================================================================== *)

(** [sub] occurs in [s]. *)
Definition contains (sub s : string) : Prop :=
  exists pre post, s = pre +:+ sub +:+ post.

(** The program finished with [a] without issuing any request. *)
Definition answers_locally {W A} (b : Backend W) (w : W) (p : Prog A) (a : A)
  : Prop :=
  run b p w = {| outcome := Returned a; world := w; trace := [] |}.

(** What a list read returns for a reply: the rows when there are some,
    nothing otherwise. *)
Definition rows_or_empty (r : PgReply (list Row)) : list Row :=
  match r with
  | PgData (Some rows) => rows
  | PgData None | PgError _ => []
  end.

(** Readers of a trace. *)
Definition ev_sign_in (e : Event) : option AuthResponse :=
  match e with
  | Ev (AuthSignInWithPassword _ _) r => Some r
  | _ => None
  end.

Definition ev_ban_status (e : Event) : option (PgReply BanStatus) :=
  match e with
  | Ev RpcGetUserBanStatus r => Some r
  | _ => None
  end.

Definition ev_public_url (e : Event) : option string :=
  match e with
  | Ev (StorageGetPublicUrl _ _) r => Some r
  | _ => None
  end.

Definition ev_clock (e : Event) : option Z :=
  match e with
  | Ev DateNow r => Some r
  | _ => None
  end.

Definition ev_select (table : string) (e : Event) : option (PgReply (list Row)) :=
  match e with
  | Ev (FromSelect t _ _) r => if String.eqb t table then Some r else None
  | _ => None
  end.

Definition is_upload (c : Call) : bool :=
  match c with
  | StorageUpload _ _ _ _ => true
  | _ => false
  end.

(** The rows a run asked to insert into [table], in order. *)
Definition inserted_rows (table : string) (tr : list Event) : list Row :=
  omap (fun c => if is_insert_into table c then inserted_row c else None)
    (calls tr).

(** The clock readings of a run, in order. *)
Definition clock_readings (tr : list Event) : list Z := omap ev_clock tr.

(** [!error && data.user] of [signIn]: the credential check succeeded. *)
Definition credentials_accepted (r : AuthResponse) : bool :=
  bool_decide (auth_error r = None) && bool_decide (user (auth_data r) <> None).

(** The replies a run got to its sign-in requests. *)
Definition sign_in_replies (tr : list Event) : list AuthResponse :=
  omap ev_sign_in tr.

(** The ban records a run was handed by [get_user_ban_status]. *)
Definition ban_reports (tr : list Event) : list BanStatus :=
  omap (fun e => r ← ev_ban_status e; pg_data r) tr.

(** How many of the requests are appends to the visit log. *)
Definition visit_appends (tr : list Event) : nat :=
  length (filter (fun c => is_insert_into "site_visits" c = true) (calls tr)).

(** The [ban_until] of each row a run asked to insert into [user_bans]. *)
Definition inserted_expiries (tr : list Event) : list Value :=
  (fun row => field row "ban_until") <$> inserted_rows "user_bans" tr.

(** The largest time value a [Date] can hold. *)
Definition maxTime : Z := 8640000000000000.

(** The visit statistics as the specification words them: the size of the
    log, the number of its timestamps at or after [midnight], and the number
    at or after [weekStart]. *)
Definition naive_stats (midnight weekStart : Z) (log : list Z) : VisitStats :=
  {| total := length log;
     today := length (filter (fun t => midnight <= t) log);
     thisWeek := length (filter (fun t => weekStart <= t) log) |}.

(** Local midnight of the day of [now]: the instant at which the local day
    that contains [now] began. *)
Definition local_midnight (rt : Runtime) (now : Z) : Z :=
  UTC rt (MakeDate (Day (LocalTime rt now)) 0).

(** The replies a run got to its reads of the visit log. *)
Definition visit_logs (tr : list Event) : list (PgReply (list Row)) :=
  omap (ev_select "site_visits") tr.

(** Concrete pages, zones and stores to run the gateway on. *)
Module Examples.

(** A page whose local time is UTC. *)
Definition utc : Runtime :=
  {| LocalTZA := fun _ _ => 0;
     toLocaleDateString := fun t => "day " +:+ pretty (Day t) |}.

(** Europe/London in spring 2024: on UTC until 2024-03-31T01:00:00Z, one
    hour ahead from then on.  The local hour from 01:00 to 02:00 of that day
    does not exist and is read with the earlier offset. *)
Definition london_switch : Z := 1711846800000.

Definition london : Runtime :=
  {| LocalTZA := fun t isUTC =>
       if isUTC
       then (if t <? london_switch then 0 else 3600000)
       else (if t <? london_switch + 3600000 then 0 else 3600000);
     toLocaleDateString := fun t => "day " +:+ pretty (Day t) |}.

Definition client : option Client :=
  Some (createClient "https://example.supabase.co" "anon-key").

Definition alice : User := {| user_id := "alice" |}.

(** 2024-04-03T12:00:00Z. *)
Definition noon : Z := 1712145600000.

Definition profile (banned : bool) : Row :=
  {[ "id" := VStr "alice"; "is_banned" := VBool banned ]}.

Definition store (bans visits : list Row) (who : option User) : Store :=
  {| tables := {[ "profiles" := [profile (bool_decide (bans <> []))];
                  "user_bans" := bans;
                  "site_visits" := visits ]};
     accounts := [("alice@example.org", "secret", alice)];
     current := who;
     objects := [];
     clock := noon;
     location := "/materials" |}.

(** A ban of [alice] for spam, until [until] when there is one. *)
Definition ban (until : Value) : Row :=
  ban_record "alice" None "spam" (Some "temporary") until.

Definition visit (t : Z) : Row :=
  {[ "user_id" := VNull; "page_path" := VStr "/"; "visited_at" := VTime t ]}.

End Examples.

(** Case analysis on the next reply a run depends on. *)
Ltac crack :=
  match goal with
  | |- context [toISOString ?d] => destruct d eqn:?
  | |- context [pg_error ?r] => destruct r eqn:?
  | |- context [pg_data ?r] => destruct r eqn:?
  | |- context [match ?x with _ => _ end] =>
      lazymatch x with
      | context [match _ with _ => _ end] => fail
      | _ => destruct x eqn:?
      end
  end; simpl.

Ltac split_reply :=
  match goal with
  | |- context [pg_error ?r] => destruct r
  end.

(** Case analysis on which event of a finite trace [H] speaks of. *)
Ltac split_in H :=
  simpl in H;
  repeat lazymatch type of H with
    | _ \/ _ => destruct H as [H | H]; [subst; simpl in * |]
    | False => destruct H
    | _ = _ => subst; simpl in *
    end.

(** A write that names the rows it is for: an update or a delete that
    carries at least one [.eq] filter.  Every other request passes. *)
Definition names_its_rows (c : Call) : bool :=
  match c with
  | FromUpdate _ _ fs | FromDelete _ fs => negb (bool_decide (fs = []))
  | _ => true
  end.

Definition is_write (c : Call) : bool :=
  match c with
  | FromInsert _ _ | FromUpdate _ _ _ | FromDelete _ _
  | StorageUpload _ _ _ _ => true
  | _ => false
  end.

(** The errors a run wrote to the console, in order. *)
Definition console_errors (tr : list Event) : list Error :=
  omap (fun c => match c with ConsoleError _ e => Some e | _ => None end)
    (calls tr).

Definition ev_getUser (e : Event) : option AuthResponse :=
  match e with
  | Ev AuthGetUser r => Some r
  | _ => None
  end.

(** The users [auth.getUser] reported to a run. *)
Definition reported_users (tr : list Event) : list (option User) :=
  (fun r => user (auth_data r)) <$> omap ev_getUser tr.

(** Every character of [s] satisfies [p]. *)
Fixpoint all_chars (p : ascii -> bool) (s : string) : bool :=
  match s with
  | EmptyString => true
  | String c s' => p c && all_chars p s'
  end.

Definition is_dot (c : ascii) : bool := Ascii.eqb c "."%char.

(** The characters of a storage object name the gateway builds for an
    image: letters, digits, [.], [_] and [-]. *)
Definition is_name_char (c : ascii) : bool :=
  FileName.is_safe c || Ascii.eqb c "_"%char || Ascii.eqb c "-"%char.

Definition is_digit (c : ascii) : bool :=
  let n := nat_of_ascii c in (Nat.leb 48 n && Nat.leb n 57)%bool.

(** The object name of an avatar:
    [`${user.id}-${Date.now()}.${file.name.split('.').pop()}`]. *)
Definition avatar_name (u : User) (now : Z) (file : File) : string :=
  user_id u +:+ "-" +:+ pretty now +:+ "." +:+
  FileName.split_pop "" (name file).

(** The errors of the replies a run got to its inserts into [user_bans]
    ([None] for an insert that was accepted), in order. *)
Definition ban_insert_errors (tr : list Event) : list (option Error) :=
  omap (fun ev =>
          if is_insert_into "user_bans" (ev_call ev)
          then Some (ev_error ev) else None)
    tr.

Section RunFacts.
Context {W : Type} (b : Backend W).

Lemma run_eta {A} (x : Run W A) :
  {| outcome := outcome x; world := world x; trace := trace x |} = x.
Proof. by destruct x. Qed.

Lemma run_bind {A B} (p : Prog A) (f : A -> Prog B) (w : W) :
  run b (bind p f) w =
  match outcome (run b p w) with
  | Returned a =>
      let y := run b (f a) (world (run b p w)) in
      {| outcome := outcome y; world := world y;
         trace := trace (run b p w) ++ trace y |}
  | Thrown e =>
      {| outcome := Thrown e; world := world (run b p w);
         trace := trace (run b p w) |}
  end.
Proof.
  revert w. induction p as [a | e | c k IH]; intros w; simpl.
  - by rewrite run_eta.
  - done.
  - rewrite IH. by destruct (outcome (run b (k _) _)).
Qed.

Lemma run_await (c : Call) (w : W) :
  run b (await c) w =
  {| outcome := Returned (handle b c w).1; world := (handle b c w).2;
     trace := [Ev c (handle b c w).1] |}.
Proof. reflexivity. Qed.

Lemma answers_locally_ret {A} (w : W) (a : A) : answers_locally b w (Ret a) a.
Proof. reflexivity. Qed.
End RunFacts.

Lemma contains_intro (pre sub post : string) :
  contains sub (pre +:+ sub +:+ post).
Proof. by exists pre, post. Qed.

Lemma initSupabase_absent (window : Window) (supabase : option Client) :
  SUPABASE_URL window = "" \/ SUPABASE_ANON_KEY window = ""
  \/ window_supabase window = false ->
  initSupabase window supabase = supabase.
Proof.
  unfold initSupabase. intros [-> | [-> | ->]]; simpl; try done.
  - by rewrite andb_false_r.
  - by rewrite andb_false_r.
Qed.

(** The definitions on small inputs. *)
Example parseInt_number :
  parseInt (DurNum 7 I) = Some 7 /\ parseInt (DurExp 1 I) = Some 1.
Proof. split; reflexivity. Qed.

Example parseInt_field :
  parseInt (DurStr " 14 days") = Some 14
  /\ parseInt (DurStr "-3") = Some (-3)
  /\ parseInt (DurStr "0x1f") = Some 31
  /\ parseInt (DurStr "soon") = None.
Proof. repeat split. Qed.

Example sanitize_name :
  FileName.sanitize "my photo (1).png" = "my_photo__1_.png".
Proof. reflexivity. Qed.

Example split_pop_name :
  FileName.split_pop "" "me.final.png" = "png"
  /\ FileName.split_pop "" "avatar" = "avatar".
Proof. split; reflexivity. Qed.

Example initSupabase_configured :
  initSupabase
    {| window_SUPABASE_URL := Some "https://example.supabase.co";
       window_SUPABASE_ANON_KEY := Some "anon-key";
       window_supabase := true |} None
  = Examples.client.
Proof. reflexivity. Qed.

Example initSupabase_without_key :
  initSupabase
    {| window_SUPABASE_URL := Some "https://example.supabase.co";
       window_SUPABASE_ANON_KEY := None;
       window_supabase := true |} None
  = None.
Proof. reflexivity. Qed.

(** In London, seven calendar days before 2024-04-03T12:00:00Z (13:00 local
    time) is 2024-03-27T13:00:00Z (13:00 local time), and the day of
    2024-04-03T12:00:00Z began at 2024-04-02T23:00:00Z. *)
Example london_week_ago :
  Date_addDays Examples.london (Some Examples.noon) (Some (-7))
  = Some 1711544400000.
Proof. reflexivity. Qed.

Example london_midnight :
  Date_setHours0 Examples.london (Some Examples.noon) = Some 1712098800000.
Proof. reflexivity. Qed.

Example utc_week_ago :
  Date_addDays Examples.utc (Some Examples.noon) (Some (-7))
  = Some (Examples.noon - 7 * msPerDay).
Proof. reflexivity. Qed.

Example invalid_date_throws :
  outcome (run Store.backend
             (banUser Examples.utc Examples.client "alice" "spam"
                (Some "temporary") (DurStr "soon"))
             (Examples.store [] [] None))
  = Thrown (RangeError "Invalid time value").
Proof. reflexivity. Qed.

(** C3. With the client handle unset, each of the fifteen mutating
    operations returns an error whose message, "Supabase not configured",
    contains "not configured", and issues no request at all: the trace of
    the run is empty and the backend is left as it was. *)
Theorem unconfigured_mutations_issue_no_request :
  forall (W : Type) (b : Backend W) (w : W) (rt : Runtime),
    let msg := "Supabase not configured" in
    contains "not configured" msg
    /\ (forall email password fullName,
          answers_locally b w (signUp None email password fullName)
            (local_error msg))
    /\ (forall email password,
          answers_locally b w (signIn rt None email password) (local_error msg))
    /\ answers_locally b w (signOut None) (local_error msg)
    /\ (forall updates,
          answers_locally b w (updateProfile None updates) (local_error msg))
    /\ (forall name slug icon description,
          answers_locally b w (addCategory None name slug icon description)
            (local_error msg))
    /\ (forall id updates,
          answers_locally b w (updateCategory None id updates)
            (local_error msg))
    /\ (forall id,
          answers_locally b w (deleteCategory None id) (local_error msg))
    /\ (forall title description imageUrl telegramLink category,
          answers_locally b w
            (addMaterial None title description imageUrl telegramLink category)
            (local_error msg))
    /\ (forall id updates,
          answers_locally b w (updateMaterial None id updates)
            (local_error msg))
    /\ (forall id,
          answers_locally b w (deleteMaterial None id) (local_error msg))
    /\ (forall file bucket,
          answers_locally b w (uploadImage None file bucket)
            (upload_failed {| message := msg |}))
    /\ (forall file,
          answers_locally b w (uploadAvatar None file)
            (upload_failed {| message := msg |}))
    /\ (forall userId role,
          answers_locally b w (updateUserRole None userId role)
            (local_error msg))
    /\ (forall userId reason banType duration,
          answers_locally b w (banUser rt None userId reason banType duration)
            (local_error msg))
    /\ (forall userId,
          answers_locally b w (unbanUser None userId) (local_error msg)).
Proof.
  intros W b w rt msg.
  split; [by exists "Supabase ", "" |].
  repeat split; intros; apply answers_locally_ret.
Qed.

(** C8. Each of the five list reads returns a plain list in every case:
    the empty list, with no request issued, when the client handle is unset;
    otherwise the rows of the reply when the reply carries rows, and the
    empty list when the reply is an error or carries no data. *)
Theorem list_reads_return_plain_lists :
  forall (W : Type) (b : Backend W) (w : W) (c : Client) (userId : string),
    let by_name := Some {| order_by := "name"; ascending := true |} in
    let newest := Some {| order_by := "created_at"; ascending := false |} in
    let reply q := (handle b q w).1 in
    (answers_locally b w (getCategories None) []
     /\ answers_locally b w (getMaterials None) []
     /\ answers_locally b w (getAllMaterials None) []
     /\ answers_locally b w (getAllUsers None) []
     /\ answers_locally b w (getUserBanHistory None userId) [])
    /\ outcome (run b (getCategories (Some c)) w)
       = Returned (rows_or_empty (reply (FromSelect "categories" [] by_name)))
    /\ outcome (run b (getMaterials (Some c)) w)
       = Returned (rows_or_empty
           (reply (FromSelect "materials" [Eq_ "status" (VStr "published")]
                     newest)))
    /\ outcome (run b (getAllMaterials (Some c)) w)
       = Returned (rows_or_empty (reply (FromSelect "materials" [] newest)))
    /\ outcome (run b (getAllUsers (Some c)) w)
       = Returned (rows_or_empty (reply RpcGetAllUsersAdmin))
    /\ outcome (run b (getUserBanHistory (Some c) userId) w)
       = Returned (rows_or_empty
           (reply (FromSelect "user_bans" [Eq_ "user_id" (VStr userId)]
                     newest))).
Proof.
  intros W b w c userId by_name newest reply.
  split; [repeat split |].
  repeat split; subst reply by_name newest; simpl.
  all: lazymatch goal with
       | |- context [rows_or_empty ?r] =>
           destruct r as [[rows |] | e]; reflexivity
       end.
Qed.


(** C10. In every run of [uploadAvatar] in which the storage upload was
    answered without an error, the function returns [{ url }] with the
    public URL the SDK computed for the uploaded file, whatever happened to
    the profile update that follows: its result is awaited and dropped. *)
Theorem uploadAvatar_returns_url_whatever_the_profile_write :
  forall (W : Type) (b : Backend W) (w : W) (supabase : option Client)
         (file : File) (ev : Event),
    let x := run b (uploadAvatar supabase file) w in
    In ev (trace x) ->
    is_upload (ev_call ev) = true ->
    ev_error ev = None ->
    exists publicUrl : string,
      In (Some publicUrl) (ev_public_url <$> trace x)
      /\ outcome x = Returned {| url := Some publicUrl; upload_error := None |}.
Proof.
  intros W b w [c |] file ev x; subst x; simpl; [| done].
  repeat crack; intros Hin Hup Hok; split_in Hin;
    try discriminate Hup; try (unfold ev_error in Hok; simpl in Hok; congruence).
  all: eexists; (split; [| reflexivity]); do 3 right; by left.
Qed.

Lemma banUser_flag_and_insert :
  forall (W : Type) (b : Backend W) (w : W) (rt : Runtime)
         (supabase : option Client) (userId reason : string)
         (banType : option string) (duration : Duration),
    let x := run b (banUser rt supabase userId reason banType duration) w in
    let flag :=
      FromUpdate "profiles" {["is_banned" := VBool true]}
        [Eq_ "id" (VStr userId)] in
    (In flag (calls (trace x)) <->
     exists ev, In ev (trace x)
                /\ is_insert_into "user_bans" (ev_call ev) = true
                /\ ev_error ev = None)
    /\ (forall ev e,
          In ev (trace x) ->
          is_insert_into "user_bans" (ev_call ev) = true ->
          ev_error ev = Some e ->
          outcome x = Returned {| data := None; error := Some e |}
          /\ Forall (fun c => is_update_of "profiles" c = false)
               (calls (trace x))).
Proof.
  intros W b w rt [c |] userId reason banType duration x flag;
    subst x flag; simpl.
  2: { split; [split; [intros [] | intros (ev & [] & _)] | intros ev e []]. }
  repeat crack.
  all: split; [split; [intros Hin | intros (? & Hin & Hins & Herr)]
              | intros ? ? Hin Hins Herr].
  all: split_in Hin; try discriminate; try discriminate Hins;
    unfold ev_error in *; simpl in *; try congruence.
  all: try (split; [congruence | by repeat constructor]).
  all: try (by auto 10).
  all: first
         [ eexists; split; [right; left; reflexivity |];
           split; reflexivity
         | eexists; split; [do 2 right; left; reflexivity |];
           split; reflexivity ].
Qed.

(** What a run of [banUser] with a configured client issues, in order. *)
Lemma banUser_requests :
  forall (W : Type) (b : Backend W) (w : W) (rt : Runtime) (c : Client)
         (userId reason : string) (banType : option string)
         (duration : Duration),
    let x := run b (banUser rt (Some c) userId reason banType duration) w in
    let flag :=
      FromUpdate "profiles" {["is_banned" := VBool true]}
        [Eq_ "id" (VStr userId)] in
    (forall res,
        outcome x = Returned res ->
        exists before admin banUntil,
          Forall (fun q => is_write q = false) before
          /\ calls (trace x)
             = before
               ++ FromInsert "user_bans"
                    (ban_record userId admin reason banType banUntil)
                  :: match error res with None => [flag] | Some _ => [] end
          /\ ban_insert_errors (trace x) = [error res])
    /\ (forall e,
          outcome x = Thrown e ->
          Forall (fun q => is_write q = false) (calls (trace x))).
Proof.
  intros W b w rt c userId reason banType duration x flag; subst x flag.
  unfold ban_insert_errors, ev_error. simpl.
  repeat crack; (split; [intros res Hres | intros err Hthrown]);
    try discriminate; try (by repeat constructor).
  all: injection Hres as <-; simpl.
  all: first
         [ exists [AuthGetUser]; do 2 eexists;
           split; [by repeat constructor | split; reflexivity]
         | exists [AuthGetUser; DateNow]; do 2 eexists;
           split; [by repeat constructor | split; reflexivity] ].
Qed.

(** C2. In every run of [banUser], the update that sets [is_banned] on
    the profile is issued exactly when the insert into [user_bans] was
    answered without an error.  When that insert is answered with an error,
    no update of [profiles] is issued and [banUser] returns that very
    error.  With a configured client, a call that returns has issued
    exactly one insert into [user_bans], of the record built from its
    arguments and after reads only; it returns the error of the reply to
    that insert, and the update of the flag follows the insert directly
    when that error is null and is left out otherwise.  A call that throws
    has written nothing. *)
Theorem banUser_flags_profile_iff_insert_succeeded :
  forall (W : Type) (b : Backend W) (w : W) (rt : Runtime)
         (supabase : option Client) (userId reason : string)
         (banType : option string) (duration : Duration),
    let x := run b (banUser rt supabase userId reason banType duration) w in
    let flag :=
      FromUpdate "profiles" {["is_banned" := VBool true]}
        [Eq_ "id" (VStr userId)] in
    (In flag (calls (trace x)) <->
     exists ev, In ev (trace x)
                /\ is_insert_into "user_bans" (ev_call ev) = true
                /\ ev_error ev = None)
    /\ (forall ev e,
          In ev (trace x) ->
          is_insert_into "user_bans" (ev_call ev) = true ->
          ev_error ev = Some e ->
          outcome x = Returned {| data := None; error := Some e |}
          /\ Forall (fun c => is_update_of "profiles" c = false)
               (calls (trace x)))
    /\ (forall res,
          supabase <> None ->
          outcome x = Returned res ->
          exists before admin banUntil,
            Forall (fun q => is_write q = false) before
            /\ calls (trace x)
               = before
                 ++ FromInsert "user_bans"
                      (ban_record userId admin reason banType banUntil)
                    :: match error res with None => [flag] | Some _ => [] end
            /\ ban_insert_errors (trace x) = [error res])
    /\ (forall e,
          outcome x = Thrown e ->
          Forall (fun q => is_write q = false) (calls (trace x))).
Proof.
  intros W b w rt supabase userId reason banType duration x flag.
  destruct (banUser_flag_and_insert W b w rt supabase userId reason banType
              duration) as [Hiff Hfail].
  split; [exact Hiff |]. split; [exact Hfail |].
  destruct supabase as [c |].
  - destruct (banUser_requests W b w rt c userId reason banType duration)
      as [Hreturned Hthrown].
    split; [intros res _; apply Hreturned | exact Hthrown].
  - split; [intros res Hnone; by destruct Hnone | discriminate].
Qed.

Lemma string_app_assoc (a b c : string) : (a +:+ b) +:+ c = a +:+ b +:+ c.
Proof.
  induction a as [| x a IH]; [done |].
  change (String x ((a +:+ b) +:+ c) = String x (a +:+ b +:+ c)).
  by f_equal.
Qed.

Lemma string_app_nil_r (a : string) : a +:+ "" = a.
Proof.
  induction a as [| x a IH]; [done |].
  change (String x (a +:+ "") = String x a).
  by f_equal.
Qed.

Lemma suspended_message_reason (rt : Runtime) (ban : BanStatus) :
  contains (reason ban) (suspended_message rt ban).
Proof. unfold suspended_message. apply contains_intro. Qed.

Lemma suspended_message_expiry (rt : Runtime) (ban : BanStatus) :
  match ban_until ban with
  | Some until => contains (toLocaleDateString rt until)
                    (suspended_message rt ban)
  | None => contains "(Permanent)" (suspended_message rt ban)
  end.
Proof.
  unfold suspended_message, Date_toLocaleDateString.
  destruct (ban_until ban) as [until |].
  - exists ("Your account has been suspended. Reason: " +:+ reason ban
            +:+ " Until: "), "".
    by rewrite string_app_nil_r, !string_app_assoc.
  - exists ("Your account has been suspended. Reason: " +:+ reason ban
            +:+ " "), "".
    by rewrite !string_app_assoc.
Qed.

(** C1, as the code has it.  In every run of [signIn] in which the
    credential check succeeded and the ban status handed back is an active
    ban, [signIn] issues the backend sign-out and returns an error (and no
    data) whose message contains the reason of the ban, together with the
    expiry date in the locale's format when the ban carries an expiry, and
    "(Permanent)" when it carries none, whatever the type of the ban. *)
Theorem signIn_revokes_session_of_banned_identity :
  forall (W : Type) (b : Backend W) (w : W) (rt : Runtime)
         (supabase : option Client) (email password : string)
         (r : AuthResponse) (ban : BanStatus),
    let x := run b (signIn rt supabase email password) w in
    In r (sign_in_replies (trace x)) ->
    credentials_accepted r = true ->
    In ban (ban_reports (trace x)) ->
    is_active ban = true ->
    In AuthSignOut (calls (trace x))
    /\ outcome x = Returned (local_error (suspended_message rt ban))
    /\ contains (reason ban) (suspended_message rt ban)
    /\ match ban_until ban with
       | Some until =>
           contains (toLocaleDateString rt until) (suspended_message rt ban)
       | None => contains "(Permanent)" (suspended_message rt ban)
       end.
Proof.
  intros W b w rt [c |] email password r ban x; subst x; simpl; [| done].
  intros Hr Hok Hban Hactive.
  split; [| split; [| split;
    [apply suspended_message_reason | apply suspended_message_expiry]]];
    revert Hr Hok Hban; repeat crack; intros Hr Hok Hban;
    split_in Hr; split_in Hban; try congruence; auto 10.
Qed.

(** C7. In every run of [signIn] in which the credential check succeeded
    and no active ban was handed back (the status is absent, inactive, or
    could not be fetched), exactly one append to the visit log is issued and
    [signIn] returns the data of the sign-in with no error.  The reply to
    the append does not enter the result: the statement holds for every
    backend, whatever it answers to the append. *)
Theorem signIn_tracks_exactly_one_visit :
  forall (W : Type) (b : Backend W) (w : W) (rt : Runtime)
         (supabase : option Client) (email password : string)
         (r : AuthResponse),
    let x := run b (signIn rt supabase email password) w in
    In r (sign_in_replies (trace x)) ->
    credentials_accepted r = true ->
    Forall (fun ban => is_active ban = false) (ban_reports (trace x)) ->
    visit_appends (trace x) = 1%nat
    /\ outcome x = Returned {| data := Some (auth_data r); error := None |}.
Proof.
  intros W b w rt [c |] email password r x; subst x; simpl; [| done].
  unfold visit_appends, credentials_accepted.
  repeat crack; intros Hr Hok Hban; split_in Hr;
    repeat match goal with
      | H : Forall _ (_ :: _) |- _ => inversion H; clear H; subst
      end;
    simpl in *;
    apply andb_true_iff in Hok as [Herr Huser];
    apply bool_decide_eq_true in Herr, Huser;
    try congruence; by split.
Qed.

Lemma MakeDate_Day (t n : Z) :
  MakeDate (Day t + n) (TimeWithinDay t) = t + n * msPerDay.
Proof.
  unfold MakeDate, Day, TimeWithinDay.
  pose proof (Z.div_mod t msPerDay ltac:(done)). lia.
Qed.

Lemma Date_addDays_Some (rt : Runtime) (now n : Z) :
  Date_addDays rt (Some now) (Some n)
  = TimeClip (UTC rt (LocalTime rt now + n * msPerDay)).
Proof. unfold Date_addDays. by rewrite MakeDate_Day. Qed.

Lemma TimeClip_in_range (t : Z) : Z.abs t <= maxTime -> TimeClip t = Some t.
Proof.
  unfold TimeClip, maxTime. intros H.
  by destruct (Z.leb_spec (Z.abs t) 8640000000000000); [| lia].
Qed.

Lemma TimeClip_out_of_range (t : Z) : maxTime < Z.abs t -> TimeClip t = None.
Proof.
  unfold TimeClip, maxTime. intros H.
  by destruct (Z.leb_spec (Z.abs t) 8640000000000000); [lia |].
Qed.

Lemma UTC_LocalTime_same_offset (rt : Runtime) (t d : Z) :
  LocalTZA rt (LocalTime rt t + d) false = LocalTZA rt t true ->
  UTC rt (LocalTime rt t + d) = t + d.
Proof. unfold UTC. intros ->. unfold LocalTime. lia. Qed.

Lemma ban_record_until (userId : string) (admin : option User)
    (reason : string) (banType : option string) (banUntil : Value) :
  field (ban_record userId admin reason banType banUntil) "ban_until"
  = banUntil.
Proof. reflexivity. Qed.

(** C4, as the code has it.  [banUser] computes an expiry only for ban
    type ['temporary'] with a day-count that is truthy (not absent, not 0,
    not the empty string).  When [parseInt] reads that day-count as [n], the
    one clock reading [now] of the run is moved by [n] local calendar days,
    to the instant whose local time is that of [now] plus [n] days.  When
    that instant is a valid date (at most [maxTime] milliseconds from the
    epoch), it is the expiry of the one record inserted; when it is not,
    [toISOString] throws a [RangeError] and no record is inserted.  The
    instant is [now] plus [n] times 24 hours whenever the zone's offset is
    the same at both ends.  When the ban type is absent or not
    ['temporary'], or the day-count is not truthy, the inserted expiry is
    null. *)
Theorem banUser_expiry_of_inserted_record :
  forall (W : Type) (b : Backend W) (w : W) (rt : Runtime) (c : Client)
         (userId reason : string) (banType : option string)
         (duration : Duration),
    let x := run b (banUser rt (Some c) userId reason banType duration) w in
    (banType = Some "temporary" ->
     Duration_truthy duration = true ->
     forall n : Z,
       parseInt duration = Some n ->
       exists now : Z,
         clock_readings (trace x) = [now]
         /\ (Z.abs (UTC rt (LocalTime rt now + n * msPerDay)) <= maxTime ->
             inserted_expiries (trace x)
             = [VTime (UTC rt (LocalTime rt now + n * msPerDay))])
         /\ (maxTime < Z.abs (UTC rt (LocalTime rt now + n * msPerDay)) ->
             inserted_expiries (trace x) = []
             /\ outcome x = Thrown (RangeError "Invalid time value"))
         /\ (LocalTZA rt (LocalTime rt now + n * msPerDay) false
             = LocalTZA rt now true ->
             UTC rt (LocalTime rt now + n * msPerDay) = now + n * msPerDay))
    /\ (banType <> Some "temporary" \/ Duration_truthy duration = false ->
        inserted_expiries (trace x) = [VNull]).
Proof.
  intros W b w rt c userId reason banType duration x; subst x.
  unfold banUser, inserted_expiries, inserted_rows, clock_readings. split.
  - intros -> Htruthy n Hn.
    rewrite Hn, Htruthy, bool_decide_eq_true_2 by done. simpl.
    eexists. split; [| split; [| split]].
    + rewrite Date_addDays_Some.
      destruct (TimeClip _); simpl; [| reflexivity].
      by split_reply.
    + intros Hrange. rewrite Date_addDays_Some, TimeClip_in_range by done.
      simpl. by split_reply.
    + intros Hrange. rewrite Date_addDays_Some, TimeClip_out_of_range by done.
      by split.
    + apply UTC_LocalTime_same_offset.
  - intros Hno.
    assert (bool_decide (banType = Some "temporary") && Duration_truthy duration
            = false) as ->.
    { destruct Hno as [Hno | ->]; [| apply andb_false_r].
      by rewrite bool_decide_eq_false_2. }
    simpl. by split_reply.
Qed.

Lemma visits_since_log (since : Z) (rows : list Row) (log : list Z) :
  (fun v => field v "visited_at") <$> rows = VTime <$> log ->
  visits_since (Some since) rows = length (filter (fun t => since <= t) log).
Proof.
  unfold visits_since. revert log.
  induction rows as [| v rows IH]; intros [| t log] Hlog;
    try discriminate Hlog; [done |].
  injection Hlog as Hv Hrest. rewrite !filter_cons, Hv. simpl.
  specialize (IH log Hrest).
  destruct (Z.leb_spec since t); repeat case_decide; simpl;
    try lia; try done.
Qed.

Lemma Date_setHours0_Some (rt : Runtime) (now : Z) :
  Date_setHours0 rt (Some now) = TimeClip (local_midnight rt now).
Proof. reflexivity. Qed.

(** C6, as the code has it.  When the read of the visit log is answered
    with rows whose timestamps are [log], [getVisitStats] reads the clock
    twice and returns the size of the log, the number of timestamps at or
    after local midnight of the day of the first reading, and the number at
    or after the instant whose local time is that of the second reading
    minus seven calendar days; both bounds are inclusive.  That last instant
    is the second reading minus 7 times 24 hours whenever the zone's offset
    is the same at both ends of the week. *)
Theorem getVisitStats_counts_by_local_calendar :
  forall (W : Type) (b : Backend W) (w : W) (rt : Runtime)
         (supabase : option Client) (rows : list Row) (log : list Z),
    let x := run b (getVisitStats rt supabase) w in
    In (PgData (Some rows)) (visit_logs (trace x)) ->
    (fun v => field v "visited_at") <$> rows = VTime <$> log ->
    exists now now' : Z,
      clock_readings (trace x) = [now; now']
      /\ (Z.abs (local_midnight rt now) <= maxTime ->
          Z.abs (UTC rt (LocalTime rt now' + -7 * msPerDay)) <= maxTime ->
          outcome x
          = Returned (naive_stats (local_midnight rt now)
                        (UTC rt (LocalTime rt now' + -7 * msPerDay)) log))
      /\ (LocalTZA rt (LocalTime rt now' + -7 * msPerDay) false
          = LocalTZA rt now' true ->
          UTC rt (LocalTime rt now' + -7 * msPerDay) = now' + -7 * msPerDay).
Proof.
  intros W b w rt [c |] rows log x Hin Hlog; subst x; simpl in *; [| done].
  destruct Hin as [Hin | []].
  do 2 eexists. split; [reflexivity |]. split.
  - intros Hmid Hweek.
    rewrite Date_setHours0_Some, Date_addDays_Some.
    rewrite !TimeClip_in_range by done.
    rewrite Hin. simpl. unfold naive_stats.
    rewrite !(visits_since_log _ rows log) by done.
    do 3 f_equal.
    by rewrite <- (length_fmap (fun v => field v "visited_at")), Hlog,
      length_fmap.
  - apply UTC_LocalTime_same_offset.
Qed.

Module StoreFacts.
Import Store.

Lemma rows_with_rows (s : Store) (table : string) (rs : list Row) :
  rows (with_rows s table rs) table = rs.
Proof. unfold rows, with_rows. simpl. by rewrite lookup_insert_eq. Qed.

Lemma rows_with_rows_ne (s : Store) (table table' : string) (rs : list Row) :
  table <> table' -> rows (with_rows s table rs) table' = rows s table'.
Proof. intros Hne. unfold rows, with_rows. simpl. by rewrite lookup_insert_ne. Qed.

Lemma with_rows_same (s : Store) (table : string) (rs : list Row) :
  tables s !! table = Some rs -> with_rows s table rs = s.
Proof.
  intros Hrs. destruct s as [ts ? ? ? ? ?]. unfold with_rows. simpl in *.
  by rewrite insert_id.
Qed.

Lemma tables_with_rows (s : Store) (table : string) (rs : list Row) :
  tables (with_rows s table rs) !! table = Some rs.
Proof. unfold with_rows. simpl. by rewrite lookup_insert_eq. Qed.

(** An update that no row is selected for changes nothing. *)
Lemma update_unselected (updates : Row) (fs : list Filter) (rs : list Row) :
  select fs rs = [] -> update updates fs rs = rs.
Proof.
  unfold select, update. induction rs as [| r rs IH]; [done |].
  rewrite filter_cons, fmap_cons. case_decide as Hm; [done |].
  intros Hrest. rewrite (IH Hrest).
  apply not_true_is_false in Hm. by rewrite Hm.
Qed.

(** Once deactivated, no ban of the user is selected as active. *)
Lemma deactivated_none_active (userId : string) (rs : list Row) :
  let active := [Eq_ "user_id" (VStr userId); Eq_ "is_active" (VBool true)] in
  select active (update {["is_active" := VBool false]} active rs) = [].
Proof.
  intros active. unfold select, update.
  induction rs as [| r rs IH]; [done |].
  rewrite fmap_cons, filter_cons, IH. clear IH.
  case_decide as Hm; [| done]. exfalso.
  destruct (matches_all active r) eqn:Hr; [| congruence].
  subst active. simpl in Hm.
  apply andb_true_iff in Hm as [_ Hm]. apply andb_true_iff in Hm as [Hm _].
  apply bool_decide_eq_true in Hm.
  by rewrite (lookup_union_Some_l _ _ _ (VBool false)) in Hm
    by apply lookup_singleton_eq.
Qed.

(** Clearing the flag of a profile a second time changes nothing. *)
Lemma clear_flag_twice (userId : string) (rs : list Row) :
  let clear := update {["is_banned" := VBool false]} [Eq_ "id" (VStr userId)] in
  clear (clear rs) = clear rs.
Proof.
  intros clear. subst clear. unfold update.
  rewrite <- list_fmap_compose. apply list_fmap_ext. intros _ r _. simpl.
  rewrite !andb_true_r.
  destruct (bool_decide (r !! "id" = Some (VStr userId))) eqn:Hr.
  - apply bool_decide_eq_true in Hr.
    rewrite lookup_union_r, bool_decide_eq_true_2 by done.
    by rewrite map_union_assoc, map_union_idemp.
  - by rewrite Hr.
Qed.

Lemma cleared_flag (userId : string) (rs : list Row) :
  Forall (fun p : Row => p !! "is_banned" = Some (VBool false))
    (select [Eq_ "id" (VStr userId)]
       (update {["is_banned" := VBool false]} [Eq_ "id" (VStr userId)] rs)).
Proof.
  unfold select, update. apply Forall_forall. intros p Hp.
  apply list_elem_of_filter in Hp as [Hsel Hp].
  apply list_elem_of_fmap in Hp as (r & -> & _).
  destruct (matches_all [Eq_ "id" (VStr userId)] r) eqn:Hr; [| congruence].
  apply lookup_union_Some_l, lookup_singleton_eq.
Qed.

End StoreFacts.

Lemma unbanUser_run {W : Type} (b : Backend W) (c : Client) (userId : string)
    (w : W) :
  let deactivate :=
    FromUpdate "user_bans" {["is_active" := VBool false]}
      [Eq_ "user_id" (VStr userId); Eq_ "is_active" (VBool true)] in
  let clear :=
    FromUpdate "profiles" {["is_banned" := VBool false]}
      [Eq_ "id" (VStr userId)] in
  let r1 := handle b deactivate w in
  let r2 := handle b clear r1.2 in
  run b (unbanUser (Some c) userId) w
  = {| outcome := Returned (pg_result r2.1); world := r2.2;
       trace := [Ev deactivate r1.1; Ev clear r2.1] |}.
Proof. reflexivity. Qed.

Lemma unbanUser_world (s : Store) (c : Client) (userId : string) :
  let active := [Eq_ "user_id" (VStr userId); Eq_ "is_active" (VBool true)] in
  world (run Store.backend (unbanUser (Some c) userId) s)
  = Store.with_rows
      (Store.with_rows s "user_bans"
         (Store.update {["is_active" := VBool false]} active
            (Store.rows s "user_bans")))
      "profiles"
      (Store.update {["is_banned" := VBool false]} [Eq_ "id" (VStr userId)]
         (Store.rows s "profiles")).
Proof.
  intros active. rewrite unbanUser_run.
  cbn [world handle Store.backend Store.answer fst snd].
  by rewrite StoreFacts.rows_with_rows_ne.
Qed.

Lemma faulty_update_world (bad : Call -> bool) (table : string)
    (updates : Row) (fs : list Filter) (s : Store) :
  (Faulty.answer bad (FromUpdate table updates fs) s).2
  = if bad (FromUpdate table updates fs) then s
    else Store.with_rows s table (Store.update updates fs (Store.rows s table)).
Proof. unfold Faulty.answer. by destruct (bad _). Qed.

Example unbanUser_clears_alice :
  let s := Examples.store [Examples.ban VNull] [] None in
  let once := world (run Store.backend (unbanUser Examples.client "alice") s) in
  Store.rows s "profiles" = [Examples.profile true]
  /\ Store.rows once "profiles" = [Examples.profile false]
  /\ Store.rows once "user_bans"
     = [<["is_active" := VBool false]> (Examples.ban VNull)].
Proof. repeat split. Qed.

(** C5. On the in-memory store, a second [unbanUser] for the same user
    leaves the store exactly as the first one left it.  After the first call
    no ban of the user is selected as active any more, so the deactivation
    of the second call touches no record; the second call still issues the
    update that clears [is_banned], and every profile of the user has the
    flag cleared.  The store stays as the first call left it also when the
    backend refuses some or all requests of the second call. *)
Theorem unbanUser_is_idempotent :
  forall (s : Store) (c : Client) (userId : string) (bad : Call -> bool),
    let once := run Store.backend (unbanUser (Some c) userId) s in
    let twice := run Store.backend (unbanUser (Some c) userId) (world once) in
    let active := [Eq_ "user_id" (VStr userId); Eq_ "is_active" (VBool true)] in
    let clear :=
      FromUpdate "profiles" {["is_banned" := VBool false]}
        [Eq_ "id" (VStr userId)] in
    world twice = world once
    /\ Store.select active (Store.rows (world once) "user_bans") = []
    /\ In clear (calls (trace twice))
    /\ Forall (fun p : Row => p !! "is_banned" = Some (VBool false))
         (Store.select [Eq_ "id" (VStr userId)]
            (Store.rows (world twice) "profiles"))
    /\ world (run (Faulty.backend bad) (unbanUser (Some c) userId) (world once))
       = world once.
Proof.
  intros s c userId bad once twice active clear.
  assert (Hbans : Store.rows (world once) "user_bans"
                  = Store.update {["is_active" := VBool false]} active
                      (Store.rows s "user_bans")).
  { subst once. rewrite unbanUser_world.
    rewrite StoreFacts.rows_with_rows_ne by discriminate.
    rewrite StoreFacts.rows_with_rows. reflexivity. }
  assert (Hprofiles : Store.rows (world once) "profiles"
                      = Store.update {["is_banned" := VBool false]}
                          [Eq_ "id" (VStr userId)] (Store.rows s "profiles")).
  { subst once. rewrite unbanUser_world.
    rewrite StoreFacts.rows_with_rows. reflexivity. }
  assert (Hnone : Store.select active (Store.rows (world once) "user_bans") = []).
  { rewrite Hbans. apply StoreFacts.deactivated_none_active. }
  assert (Hstep1 : Store.with_rows (world once) "user_bans"
                     (Store.update {["is_active" := VBool false]} active
                        (Store.rows (world once) "user_bans"))
                   = world once).
  { rewrite (StoreFacts.update_unselected _ _ _ Hnone).
    apply StoreFacts.with_rows_same. rewrite Hbans.
    subst once. rewrite unbanUser_world.
    unfold Store.with_rows. cbn [tables].
    rewrite lookup_insert_ne by discriminate.
    rewrite lookup_insert_eq. reflexivity. }
  assert (Hstep2 : Store.with_rows (world once) "profiles"
                     (Store.update {["is_banned" := VBool false]}
                        [Eq_ "id" (VStr userId)]
                        (Store.rows (world once) "profiles"))
                   = world once).
  { rewrite Hprofiles, StoreFacts.clear_flag_twice.
    apply StoreFacts.with_rows_same.
    subst once. rewrite unbanUser_world. apply StoreFacts.tables_with_rows. }
  assert (Htwice : world twice = world once).
  { subst twice. rewrite unbanUser_world. fold active.
    rewrite Hstep1, Hstep2. reflexivity. }
  split; [exact Htwice |]. split; [exact Hnone |]. split.
  { subst twice. rewrite unbanUser_run. right. left. reflexivity. }
  split.
  - rewrite Htwice, Hprofiles. apply StoreFacts.cleared_flag.
  - rewrite unbanUser_run. cbn [world handle Faulty.backend].
    rewrite !faulty_update_world.
    repeat (match goal with
            | |- context [bad ?q] => destruct (bad q)
            end; cbv iota);
      fold active; rewrite ?Hstep1, ?Hstep2; reflexivity.
Qed.

(* ===================================================================== *)
(** * The properties at concrete inputs *)
(* ===================================================================== *)

(** C1 at a concrete input: [alice], banned for spam until
    2024-04-10T12:00:00Z, signs in with the right password. *)
Lemma signIn_revokes_session_of_banned_identity_witness :
  let x :=
    run Store.backend
      (signIn Examples.utc Examples.client "alice@example.org" "secret")
      (Examples.store [Examples.ban (VTime 1712750400000)] [] None) in
  In AuthSignOut (calls (trace x))
  /\ outcome x
     = Returned (local_error
         "Your account has been suspended. Reason: spam Until: day 19823").
Proof.
  intros x.
  destruct (signIn_revokes_session_of_banned_identity Store Store.backend
              (Examples.store [Examples.ban (VTime 1712750400000)] [] None)
              Examples.utc Examples.client "alice@example.org" "secret"
              (Store.signed_in (Some Examples.alice))
              {| is_active := true; reason := "spam";
                 ban_until := Some 1712750400000 |})
    as (Hout & Hres & _).
  - left. reflexivity.
  - reflexivity.
  - left. reflexivity.
  - reflexivity.
  - split; [exact Hout | exact Hres].
Defined.

(** C2 at concrete inputs.  A backend that refuses the insert into
    [user_bans]: [banUser] returns the refusal and leaves [profiles]
    alone.  The store that accepts it: [banUser] returns without an error,
    has inserted one record, and has set the flag on the profile. *)
Lemma banUser_flags_profile_iff_insert_succeeded_witness :
  let refused := Faulty.backend (is_insert_into "user_bans") in
  let ban :=
    banUser Examples.utc Examples.client "alice" "spam" (Some "temporary")
      (DurNum 7 I) in
  let x := run refused ban (Examples.store [] [] None) in
  let y := run Store.backend ban (Examples.store [] [] None) in
  let flag :=
    FromUpdate "profiles" {["is_banned" := VBool true]}
      [Eq_ "id" (VStr "alice")] in
  (outcome x = Returned {| data := None; error := Some Faulty.refusal |}
   /\ Forall (fun c => is_update_of "profiles" c = false) (calls (trace x))
   /\ ban_insert_errors (trace x) = [Some Faulty.refusal])
  /\ (outcome y = Returned {| data := None; error := None |}
      /\ In flag (calls (trace y))
      /\ ban_insert_errors (trace y) = [None]).
Proof.
  intros refused ban x y flag.
  destruct (banUser_flags_profile_iff_insert_succeeded Store refused
              (Examples.store [] [] None) Examples.utc Examples.client
              "alice" "spam" (Some "temporary") (DurNum 7 I))
    as (_ & Hfail & Hreturned & _).
  destruct (banUser_flags_profile_iff_insert_succeeded Store Store.backend
              (Examples.store [] [] None) Examples.utc Examples.client
              "alice" "spam" (Some "temporary") (DurNum 7 I))
    as (Hiff & _ & Haccepted & _).
  split.
  - destruct (Hfail
                (Ev (FromInsert "user_bans"
                       (ban_record "alice" None "spam" (Some "temporary")
                          (VTime 1712750400000)))
                    (PgError Faulty.refusal))
                Faulty.refusal) as [Hout Hnone].
    + right. right. left. reflexivity.
    + reflexivity.
    + reflexivity.
    + split; [exact Hout | split; [exact Hnone |]].
      destruct (Hreturned {| data := None; error := Some Faulty.refusal |})
        as (before & admin & banUntil & _ & _ & Herrors).
      * discriminate.
      * exact Hout.
      * exact Herrors.
  - split; [reflexivity |].
    split.
    + apply Hiff.
      exists (Ev (FromInsert "user_bans"
                    (ban_record "alice" None "spam" (Some "temporary")
                       (VTime 1712750400000)))
                 (PgData None)).
      split; [right; right; left; reflexivity | split; reflexivity].
    + destruct (Haccepted {| data := None; error := None |})
        as (before & admin & banUntil & _ & _ & Herrors).
      * discriminate.
      * reflexivity.
      * exact Herrors.
Defined.

(** C4 at concrete inputs, decided at 2024-04-03T12:00:00Z on a page in
    UTC.  A ban of seven days expires at 2024-04-10T12:00:00Z.  A day-count
    of 1e21 prints as "1e+21", is read as 1, and the ban expires a day
    later.  A day-count of 100000001 leads past the last valid date: the
    call throws and inserts nothing.  A ban of type ['permanent'] has no
    expiry. *)
Lemma banUser_expiry_of_inserted_record_witness :
  let ban banType duration :=
    run Store.backend
      (banUser Examples.utc Examples.client "alice" "spam" (Some banType)
         duration)
      (Examples.store [] [] None) in
  inserted_expiries (trace (ban "temporary" (DurStr "7")))
  = [VTime (Examples.noon + 7 * msPerDay)]
  /\ inserted_expiries (trace (ban "temporary" (DurExp 1 I)))
     = [VTime (Examples.noon + 1 * msPerDay)]
  /\ (inserted_expiries (trace (ban "temporary" (DurNum 100000001 I))) = []
      /\ outcome (ban "temporary" (DurNum 100000001 I))
         = Thrown (RangeError "Invalid time value"))
  /\ inserted_expiries (trace (ban "permanent" (DurNum 7 I))) = [VNull].
Proof.
  intros ban.
  pose proof (banUser_expiry_of_inserted_record Store Store.backend
                (Examples.store [] [] None) Examples.utc
                (createClient "https://example.supabase.co" "anon-key")
                "alice" "spam") as Hban.
  split; [| split; [| split]].
  - destruct (Hban (Some "temporary") (DurStr "7")) as [Htemp _].
    destruct (Htemp eq_refl eq_refl 7 eq_refl)
      as (now & Hclock & Hexpiry & _ & _).
    injection Hclock as <-.
    apply Hexpiry. vm_compute. discriminate.
  - destruct (Hban (Some "temporary") (DurExp 1 I)) as [Htemp _].
    destruct (Htemp eq_refl eq_refl 1 eq_refl)
      as (now & Hclock & Hexpiry & _ & _).
    injection Hclock as <-.
    apply Hexpiry. vm_compute. discriminate.
  - destruct (Hban (Some "temporary") (DurNum 100000001 I)) as [Htemp _].
    destruct (Htemp eq_refl eq_refl 100000001 eq_refl)
      as (now & Hclock & _ & Hthrown & _).
    injection Hclock as <-.
    apply Hthrown. reflexivity.
  - destruct (Hban (Some "permanent") (DurNum 7 I)) as [_ Hperm].
    apply Hperm. left. discriminate.
Defined.

(** C1 as stated fails.  [banUser] with ban type ['temporary'] and a
    day-count of 0 stores an active ban of type ['temporary'] that has no
    expiry.  When the banned user then signs in with valid credentials,
    the session is revoked, but the message ends in "(Permanent)" although
    the ban is temporary: [signIn] goes by the expiry of the ban, not by
    its type. *)
Lemma signIn_temporary_ban_without_expiry_counterexample :
  let banned :=
    run Store.backend
      (banUser Examples.utc Examples.client "alice" "spam" (Some "temporary")
         (DurNum 0 I))
      (Examples.store [] [] None) in
  let x :=
    run Store.backend
      (signIn Examples.utc Examples.client "alice@example.org" "secret")
      (world banned) in
  (fun row => field row "ban_type") <$> Store.rows (world banned) "user_bans"
  = [VStr "temporary"]
  /\ sign_in_replies (trace x) = [Store.signed_in (Some Examples.alice)]
  /\ credentials_accepted (Store.signed_in (Some Examples.alice)) = true
  /\ ban_reports (trace x)
     = [{| is_active := true; reason := "spam"; ban_until := None |}]
  /\ In AuthSignOut (calls (trace x))
  /\ outcome x
     = Returned (local_error
         "Your account has been suspended. Reason: spam (Permanent)").
Proof.
  intros banned x.
  split; [reflexivity |]. split; [reflexivity |]. split; [reflexivity |].
  split; [reflexivity |]. split; [| reflexivity].
  right. right. left. reflexivity.
Qed.

(** C4 as stated fails: a temporary ban with a day-count of 0 is inserted
    with no expiry, not with an expiry of the current time plus 0 days; and
    so is a temporary ban whose day-count is left out. *)
Lemma banUser_temporary_zero_days_counterexample :
  let expiries duration :=
    inserted_expiries
      (trace (run Store.backend
                (banUser Examples.utc Examples.client "alice" "spam"
                   (Some "temporary") duration)
                (Examples.store [] [] None))) in
  expiries (DurNum 0 I) = [VNull]
  /\ expiries (DurNum 0 I) <> [VTime (Examples.noon + 0 * msPerDay)]
  /\ expiries DurNull = [VNull].
Proof.
  intros expiries. split; [| split]; vm_compute; [reflexivity | discriminate |
    reflexivity].
Qed.

(** C6 at a concrete input: on a page in UTC at 2024-04-03T12:00:00Z, with
    visits exactly at midnight, one millisecond before it, exactly seven
    days ago and one millisecond before that. *)
Lemma getVisitStats_counts_by_local_calendar_witness :
  let log := [1712102400000; 1712102399999; 1711540800000; 1711540799999] in
  outcome (run Store.backend (getVisitStats Examples.utc Examples.client)
             (Examples.store [] (Examples.visit <$> log) None))
  = Returned {| total := 4; today := 1; thisWeek := 3 |}.
Proof.
  intros log.
  destruct (getVisitStats_counts_by_local_calendar Store Store.backend
              (Examples.store [] (Examples.visit <$> log) None)
              Examples.utc Examples.client (Examples.visit <$> log) log)
    as (now & now' & Hclock & Hcounts & _).
  - left. reflexivity.
  - reflexivity.
  - vm_compute in Hclock. injection Hclock as <- <-.
    rewrite Hcounts; [reflexivity | vm_compute; discriminate ..].
Defined.

(** C6 as stated fails: in London on 2024-04-03T12:00:00Z, three days after
    the clocks went forward, a visit made exactly 7 times 24 hours earlier
    is left out of the week's count, which a window of 7 times 24 hours
    would include. *)
Lemma getVisitStats_week_boundary_counterexample :
  let log := [Examples.noon - 7 * msPerDay] in
  let x :=
    run Store.backend (getVisitStats Examples.london Examples.client)
      (Examples.store [] (Examples.visit <$> log) None) in
  outcome x = Returned {| total := 1; today := 0; thisWeek := 0 |}
  /\ naive_stats (local_midnight Examples.london Examples.noon)
       (Examples.noon - 7 * msPerDay) log
     = {| total := 1; today := 0; thisWeek := 1 |}
  /\ outcome x
     <> Returned (naive_stats (local_midnight Examples.london Examples.noon)
                    (Examples.noon - 7 * msPerDay) log).
Proof.
  intros log x. split; [| split]; vm_compute; [reflexivity .. | discriminate].
Qed.

(** C7 at a concrete input: [alice], not banned, signs in while the backend
    refuses every append to [site_visits]. *)
Lemma signIn_tracks_exactly_one_visit_witness :
  let x :=
    run (Faulty.backend (is_insert_into "site_visits"))
      (signIn Examples.utc Examples.client "alice@example.org" "secret")
      (Examples.store [] [] None) in
  (ev_error <$> trace x) !! 4%nat = Some (Some Faulty.refusal)
  /\ visit_appends (trace x) = 1%nat
  /\ outcome x
     = Returned {| data := Some {| user := Some Examples.alice;
                                   session := Some "alice" |};
                   error := None |}.
Proof.
  intros x. split; [reflexivity |].
  apply (signIn_tracks_exactly_one_visit Store
           (Faulty.backend (is_insert_into "site_visits"))
           (Examples.store [] [] None) Examples.utc Examples.client
           "alice@example.org" "secret"
           (Store.signed_in (Some Examples.alice))).
  - left. reflexivity.
  - reflexivity.
  - constructor.
Defined.


(** C10 at a concrete input: [alice] uploads an avatar while the backend
    refuses every update of [profiles]. *)
Lemma uploadAvatar_returns_url_whatever_the_profile_write_witness :
  let x :=
    run (Faulty.backend (is_update_of "profiles"))
      (uploadAvatar Examples.client {| name := "me.final.png" |})
      (Examples.store [] [] (Some Examples.alice)) in
  (ev_error <$> trace x) !! 5%nat = Some (Some Faulty.refusal)
  /\ exists publicUrl : string,
       In (Some publicUrl) (ev_public_url <$> trace x)
       /\ outcome x
          = Returned {| url := Some publicUrl; upload_error := None |}.
Proof.
  intros x. split; [reflexivity |].
  apply (uploadAvatar_returns_url_whatever_the_profile_write Store
           (Faulty.backend (is_update_of "profiles"))
           (Examples.store [] [] (Some Examples.alice)) Examples.client
           {| name := "me.final.png" |}
           (Ev (StorageUpload "profile-avatars" "alice-1712145600000.png"
                  {| name := "me.final.png" |} true)
               (PgData (Some "alice-1712145600000.png")))).
  - right. right. left. reflexivity.
  - reflexivity.
  - reflexivity.
Defined.

(* ===================================================================== *)
(** * Further properties of the gateway *)
(* ===================================================================== *)

(** X1. [initSupabase] sets the handle to a fresh client exactly when the
    URL, the key and the SDK are all there; otherwise it keeps the handle it
    found.  So it never clears a handle, and calling it again on the same
    page changes nothing. *)
Theorem initSupabase_never_clears_the_handle :
  forall (window : Window) (supabase : option Client),
    let complete :=
      negb (String.eqb (SUPABASE_URL window) "")
      && negb (String.eqb (SUPABASE_ANON_KEY window) "")
      && window_supabase window in
    initSupabase window supabase
    = (if complete
       then Some (createClient (SUPABASE_URL window) (SUPABASE_ANON_KEY window))
       else supabase)
    /\ (initSupabase window supabase = None ->
        supabase = None /\ complete = false)
    /\ initSupabase window (initSupabase window supabase)
       = initSupabase window supabase.
Proof.
  intros window supabase complete. subst complete. unfold initSupabase.
  simpl.
  destruct (negb (String.eqb (SUPABASE_URL window) "")
            && negb (String.eqb (SUPABASE_ANON_KEY window) "")
            && window_supabase window); by repeat split.
Qed.

(** X2. [isAdmin] answers [true] only when [check_is_admin] was answered,
    without error, with the boolean [true] itself: an error, a missing
    client, no data, or any other value (the number 1, the string "true")
    gives [false].  It always returns, and an error is written to the
    console once. *)
Theorem isAdmin_is_true_only_for_true :
  forall (W : Type) (b : Backend W) (w : W) (c : Client),
    let x := run b (isAdmin (Some c)) w in
    let reply := (handle b RpcCheckIsAdmin w).1 in
    answers_locally b w (isAdmin None) false
    /\ (exists v : bool,
           outcome x = Returned v
           /\ (v = true <-> reply = PgData (Some (VBool true))))
    /\ console_errors (trace x)
       = match pg_error reply with Some e => [e] | None => [] end.
Proof.
  intros W b w c x reply. subst x reply. split; [reflexivity |]. simpl.
  match goal with
  | |- context [pg_error ?r] => destruct r as [[v |] | e]
  end; simpl.
  - split; [| reflexivity]. eexists. split; [reflexivity |].
    split; intros Hv;
      first [ discriminate Hv
            | apply bool_decide_eq_true in Hv; congruence
            | apply bool_decide_eq_true; congruence ].
  - split; [| reflexivity]. eexists. split; [reflexivity |].
    split; intros Hv;
      first [ discriminate Hv
            | apply bool_decide_eq_true in Hv; congruence
            | apply bool_decide_eq_true; congruence ].
  - split; [| reflexivity]. exists false. split; [reflexivity |].
    split; discriminate.
Qed.

(** X3. When the credential check fails (the reply carries an error, or no
    user), [signIn] stops there: the sign-in request is the only request of
    the run (no ban check, no visit logged), and the reply's data and error
    are returned as they are. *)
Theorem signIn_stops_at_rejected_credentials :
  forall (W : Type) (b : Backend W) (w : W) (rt : Runtime) (c : Client)
         (email password : string),
    let rw := handle b (AuthSignInWithPassword email password) w in
    credentials_accepted rw.1 = false ->
    run b (signIn rt (Some c) email password) w
    = {| outcome := Returned {| data := Some (auth_data rw.1);
                                error := auth_error rw.1 |};
         world := rw.2;
         trace := [Ev (AuthSignInWithPassword email password) rw.1] |}.
Proof.
  intros W b w rt c email password rw Hno. subst rw.
  unfold credentials_accepted in Hno. simpl in *.
  destruct (auth_error _) as [e |]; [reflexivity |].
  destruct (user _) as [u |]; [| reflexivity].
  discriminate Hno.
Qed.

(** X4. [signIn] revokes the session only for an active ban: in every run,
    the backend sign-out is issued exactly when an active ban was handed
    back.  In particular a ban check that fails, or that hands back nothing
    or an inactive record, never costs the user the session. *)
Theorem signIn_signs_out_iff_active_ban :
  forall (W : Type) (b : Backend W) (w : W) (rt : Runtime)
         (supabase : option Client) (email password : string),
    let x := run b (signIn rt supabase email password) w in
    In AuthSignOut (calls (trace x))
    <-> exists ban, In ban (ban_reports (trace x)) /\ is_active ban = true.
Proof.
  intros W b w rt [c |] email password x; subst x; simpl.
  2: { split; [intros [] | intros (ban & [] & _)]. }
  repeat crack; (split; [intros Hin | intros (ban & Hin & Hactive)]);
    split_in Hin; try discriminate; try congruence; eauto 10.
Qed.

(** X5. [signIn] logs at most one visit, and logs it exactly when the
    credential check succeeded and no active ban was handed back. *)
Theorem signIn_logs_a_visit_iff_let_in :
  forall (W : Type) (b : Backend W) (w : W) (rt : Runtime)
         (supabase : option Client) (email password : string),
    let x := run b (signIn rt supabase email password) w in
    visit_appends (trace x)
    = if existsb credentials_accepted (sign_in_replies (trace x))
         && forallb (fun ban => negb (is_active ban)) (ban_reports (trace x))
      then 1%nat else 0%nat.
Proof.
  intros W b w rt [c |] email password x; subst x; simpl; [| reflexivity].
  unfold visit_appends, credentials_accepted.
  repeat crack; simpl;
    repeat match goal with
      | H : ?a = _ |- context [bool_decide (?a = None)] => rewrite H
      | H : ?a = _ |- context [bool_decide (?a <> None)] => rewrite H
      end;
    simpl; try reflexivity; try congruence.
Qed.

(** X6. [updateProfile] can only write to the caller's own profile: the one
    write a run may issue is the update of [profiles] with the given
    columns, filtered on the id of the very user [auth.getUser] reported in
    that run. *)
Theorem updateProfile_writes_only_the_own_row :
  forall (W : Type) (b : Backend W) (w : W) (supabase : option Client)
         (updates : Row),
    let x := run b (updateProfile supabase updates) w in
    Forall (fun c =>
              is_write c = true ->
              exists u, In (Some u) (reported_users (trace x))
                        /\ c = FromUpdate "profiles" updates
                                 [Eq_ "id" (VStr (user_id u))])
      (calls (trace x))
    /\ (length (filter (fun c => is_write c = true) (calls (trace x))) <= 1)%nat.
Proof.
  intros W b w [c |] updates x; subst x; simpl; [| by split; constructor].
  unfold reported_users. repeat crack; split; try (simpl; lia);
    repeat constructor; try discriminate.
  intros _. eexists. split; [left; reflexivity | reflexivity].
Qed.

(** X7. No operation of the gateway issues an update or a delete without a
    row filter: every such request carries at least one [.eq], so none of
    them can touch a whole table. *)
Theorem writes_always_name_their_rows :
  forall (W : Type) (b : Backend W) (w : W) (rt : Runtime)
         (supabase : option Client),
    let safe {A} (p : Prog A) :=
      Forall (fun c => names_its_rows c = true) (calls (trace (run b p w))) in
    (forall updates, safe (updateProfile supabase updates))
    /\ (forall id updates, safe (updateCategory supabase id updates))
    /\ (forall id, safe (deleteCategory supabase id))
    /\ (forall id updates, safe (updateMaterial supabase id updates))
    /\ (forall id, safe (deleteMaterial supabase id))
    /\ (forall file, safe (uploadAvatar supabase file))
    /\ (forall userId role, safe (updateUserRole supabase userId role))
    /\ (forall userId reason banType duration,
          safe (banUser rt supabase userId reason banType duration))
    /\ (forall userId, safe (unbanUser supabase userId))
    /\ (forall email password, safe (signIn rt supabase email password)).
Proof.
  intros W b w rt [c |] safe; subst safe; simpl.
  2: { repeat split; intros; constructor. }
  repeat split; intros; simpl; repeat crack; repeat constructor.
Qed.

(** X11. A day-count [banUser] cannot turn into a date does not ban anyone:
    for ban type ['temporary'] and a truthy day-count that [parseInt] reads
    as NaN, or that moves the date out of the range of [Date], the call
    throws a [RangeError] after asking for the user and the clock, and
    issues no write at all. *)
Theorem banUser_invalid_day_count_writes_nothing :
  forall (W : Type) (b : Backend W) (w : W) (rt : Runtime) (c : Client)
         (userId reason : string) (duration : Duration),
    let x := run b (banUser rt (Some c) userId reason (Some "temporary")
                      duration) w in
    let now := (handle b DateNow (handle b AuthGetUser w).2).1 in
    Duration_truthy duration = true ->
    Date_addDays rt (Some now) (parseInt duration) = None ->
    outcome x = Thrown (RangeError "Invalid time value")
    /\ calls (trace x) = [AuthGetUser; DateNow].
Proof.
  intros W b w rt c userId reason duration x now Htruthy Hinvalid.
  subst x now. unfold banUser.
  rewrite Htruthy, bool_decide_eq_true_2 by done. simpl in *.
  by rewrite Hinvalid.
Qed.

(** X14. [handleLogout] always sends the page to "/": the navigation is the
    last thing every run does, whether the client is configured or not and
    whatever the backend answers to the sign-out; the sign-out itself is
    issued only with a configured client. *)
Theorem handleLogout_always_navigates_home :
  forall (W : Type) (b : Backend W) (w : W) (supabase : option Client),
    calls (trace (run b (handleLogout supabase) w))
    = match supabase with
      | Some _ => [AuthSignOut; LocationSetHref "/"]
      | None => [LocationSetHref "/"]
      end
    /\ outcome (run b (handleLogout supabase) w) = Returned tt.
Proof.
  intros W b w [c |]; simpl; split; try reflexivity;
    match goal with
    | |- Returned ?u = Returned tt => by destruct u
    end.
Qed.

(** X20. [getUserProfile] and [checkUserBan] never throw and never return
    an error: with no client they return null without a request; when the
    remote procedure answers with an error they write it to the console
    once and return null; otherwise they return the reply's data as it
    is. *)
Theorem profile_and_ban_reads_degrade_to_null :
  forall (W : Type) (b : Backend W) (w : W) (c : Client) (userId : string),
    let profile := (handle b (RpcGetUserProfile userId) w).1 in
    let ban := (handle b RpcGetUserBanStatus w).1 in
    let p := run b (getUserProfile (Some c) userId) w in
    let q := run b (checkUserBan (Some c)) w in
    answers_locally b w (getUserProfile None userId) None
    /\ answers_locally b w (checkUserBan None) None
    /\ outcome p = Returned (pg_data profile)
    /\ console_errors (trace p)
       = match pg_error profile with Some e => [e] | None => [] end
    /\ outcome q = Returned (pg_data ban)
    /\ console_errors (trace q)
       = match pg_error ban with Some e => [e] | None => [] end.
Proof.
  intros W b w c userId profile ban p q. subst profile ban p q. simpl.
  split; [reflexivity |]. split; [reflexivity |].
  repeat (match goal with
          | |- context [pg_error ?r] => destruct r as [? | ?]
          end; simpl);
    by repeat split.
Qed.

Module StringFacts.

Lemma all_chars_app (p : ascii -> bool) (a b : string) :
  all_chars p (a +:+ b) = all_chars p a && all_chars p b.
Proof.
  induction a as [| x a IH]; [done |].
  change (p x && all_chars p (a +:+ b) = p x && all_chars p a && all_chars p b).
  by rewrite IH, andb_assoc.
Qed.

Lemma all_chars_impl (p q : ascii -> bool) (s : string) :
  (forall c, p c = true -> q c = true) ->
  all_chars p s = true -> all_chars q s = true.
Proof.
  intros Hpq. induction s as [| x s IH]; [done |]. simpl.
  intros [Hx Hs]%andb_true_iff. by rewrite (Hpq x Hx), IH.
Qed.

Lemma pretty_N_char_digit (d : N) : is_digit (pretty_N_char d) = true.
Proof. unfold pretty_N_char. by repeat case_match. Qed.

Lemma pretty_N_go_digits (x : N) (s : string) :
  all_chars is_digit s = true -> all_chars is_digit (pretty_N_go x s) = true.
Proof.
  revert s. induction (N.lt_wf_0 x) as [x _ IH]; intros s Hs.
  destruct (decide (x = 0)%N) as [-> | Hx]; [by rewrite pretty_N_go_0 |].
  rewrite pretty_N_go_step by lia.
  apply IH; [apply N.div_lt; lia |].
  simpl. by rewrite pretty_N_char_digit, Hs.
Qed.

Lemma pretty_N_digits (x : N) : all_chars is_digit (pretty x) = true.
Proof.
  unfold pretty, pretty_N. case_decide; [done |].
  by apply pretty_N_go_digits.
Qed.

Lemma is_digit_name_char (c : ascii) :
  is_digit c = true -> is_name_char c = true.
Proof.
  destruct c as [[] [] [] [] [] [] [] []]; try discriminate; reflexivity.
Qed.

(** [String(n)] for an integer is made of digits and at most a sign. *)
Lemma pretty_Z_name_chars (z : Z) : all_chars is_name_char (pretty z) = true.
Proof.
  unfold pretty, pretty_Z. destruct z as [| p | p]; [done | |].
  - apply (all_chars_impl is_digit); [apply is_digit_name_char |].
    apply (pretty_N_digits (N.pos p)).
  - change (all_chars is_name_char (String "-" (pretty p)) = true). simpl.
    apply (all_chars_impl is_digit); [apply is_digit_name_char |].
    apply (pretty_N_digits (N.pos p)).
Qed.

Lemma sanitize_name_chars (s : string) :
  all_chars is_name_char (FileName.sanitize s) = true.
Proof.
  induction s as [| x s IH]; [done |]. simpl. rewrite IH, andb_true_r.
  unfold is_name_char. destruct (FileName.is_safe x) eqn:Hx.
  - by rewrite Hx.
  - reflexivity.
Qed.

End StringFacts.

(** X8. The replacement [uploadImage] applies to a file name keeps the
    length of the name, leaves the letters, digits and dots where they are
    (a name made of these alone is unchanged), turns every other character
    into an underscore, and changes nothing when applied a second time. *)
Theorem sanitize_keeps_safe_characters :
  forall s : string,
    String.length (FileName.sanitize s) = String.length s
    /\ all_chars (fun c => FileName.is_safe c || Ascii.eqb c "_"%char)
         (FileName.sanitize s) = true
    /\ FileName.sanitize (FileName.sanitize s) = FileName.sanitize s
    /\ (FileName.sanitize s = s <->
        all_chars (fun c => FileName.is_safe c || Ascii.eqb c "_"%char) s = true).
Proof.
  induction s as [| x s (IHlen & IHall & IHidem & IHsame)]; [done |].
  simpl. rewrite IHlen, IHall, IHidem.
  destruct (FileName.is_safe x) eqn:Hx; simpl.
  - rewrite Hx. repeat split; try done.
    + intros [= Hs]. by apply IHsame.
    + intros Hs. f_equal. by apply IHsame.
  - repeat split; try done.
    + intros [= <- Hs]. simpl. by apply IHsame.
    + intros [Hu Hs]%andb_true_iff. apply Ascii.eqb_eq in Hu as ->.
      f_equal. by apply IHsame.
Qed.

Lemma split_pop_spec (cur s : string) :
  all_chars (fun c => negb (is_dot c)) cur = true ->
  all_chars (fun c => negb (is_dot c)) (FileName.split_pop cur s) = true
  /\ (exists pre, cur +:+ s = pre +:+ FileName.split_pop cur s
                  /\ (pre = "" \/ exists p, pre = p +:+ "."))
  /\ (all_chars (fun c => negb (is_dot c)) s = true ->
      FileName.split_pop cur s = cur +:+ s).
Proof.
  revert cur. induction s as [| x s IH]; intros cur Hcur; simpl.
  - split; [done |]. split; [| by rewrite string_app_nil_r].
    exists "". split; [by rewrite string_app_nil_r | by left].
  - unfold is_dot in *. destruct (Ascii.eqb x ".") eqn:Hx.
    + apply Ascii.eqb_eq in Hx as ->.
      destruct (IH "" eq_refl) as (Hno & (pre & Hpre & Hshape) & _).
      split; [done |]. split; [| done].
      exists (cur +:+ "." +:+ pre). split.
      * rewrite !string_app_assoc. simpl in Hpre. by rewrite <- Hpre.
      * right. destruct Hshape as [-> | (p & ->)].
        -- exists cur. by rewrite string_app_nil_r.
        -- exists (cur +:+ "." +:+ p). by rewrite !string_app_assoc.
    + destruct (IH (cur +:+ String x "")) as (Hno & (pre & Hpre & Hshape) & Hall).
      { rewrite StringFacts.all_chars_app, Hcur. simpl. by rewrite Hx. }
      rewrite string_app_assoc in Hpre, Hall. simpl in Hpre, Hall.
      split; [done |]. split; [by exists pre |].
      intros Hs. by apply Hall.
Qed.

(** X9. The extension [uploadAvatar] takes from a file name is what follows
    the last dot of the name: it holds no dot, the name ends with it, and
    what precedes it is empty or ends with a dot.  A name without a dot is
    its own extension. *)
Theorem split_pop_is_the_part_after_the_last_dot :
  forall s : string,
    let ext := FileName.split_pop "" s in
    all_chars (fun c => negb (is_dot c)) ext = true
    /\ (exists pre, s = pre +:+ ext /\ (pre = "" \/ exists p, pre = p +:+ "."))
    /\ (ext = s <-> all_chars (fun c => negb (is_dot c)) s = true).
Proof.
  intros s ext. subst ext.
  destruct (split_pop_spec "" s eq_refl) as (Hno & Hpre & Hall).
  split; [done |]. split; [done |]. split; [| done].
  intros Heq. by rewrite Heq in Hno.
Qed.

(** X10. [uploadImage] uploads under a name made of the clock reading, a
    dash and the sanitized file name, so the object name holds only letters,
    digits, [.], [_] and [-]; the bucket is ['material-images'] unless the
    caller names one.  When the upload is answered with an error, that error
    is returned and no public URL is asked for; otherwise the URL returned
    is the one of the very bucket and name uploaded to. *)
Theorem uploadImage_names_and_returns :
  forall (W : Type) (b : Backend W) (w : W) (c : Client) (file : File)
         (bucket : option string),
    let x := run b (uploadImage (Some c) file bucket) w in
    let into := default "material-images" bucket in
    let now := handle b DateNow w in
    let fileName := pretty now.1 +:+ "-" +:+ FileName.sanitize (name file) in
    let up := handle b (StorageUpload into fileName file false) now.2 in
    all_chars is_name_char fileName = true
    /\ match pg_error up.1 with
       | Some e =>
           outcome x = Returned (upload_failed e)
           /\ calls (trace x)
              = [DateNow; StorageUpload into fileName file false]
       | None =>
           outcome x
           = Returned {| url := Some (handle b (StorageGetPublicUrl into fileName)
                                        up.2).1;
                         upload_error := None |}
           /\ calls (trace x)
              = [DateNow; StorageUpload into fileName file false;
                 StorageGetPublicUrl into fileName]
       end.
Proof.
  intros W b w c file bucket x into now fileName up.
  subst x into now fileName up. split.
  - rewrite !StringFacts.all_chars_app, StringFacts.pretty_Z_name_chars,
      StringFacts.sanitize_name_chars. reflexivity.
  - simpl.
    match goal with
    | |- context [pg_error ?r] => destruct r as [d | e]
    end; simpl; by split.
Qed.

Module ParseIntFacts.
Import ParseInt.







End ParseIntFacts.



Lemma visits_since_le (since : Date) (rows : list Row) :
  (visits_since since rows <= length rows)%nat.
Proof. unfold visits_since. apply length_filter. Qed.

Lemma visits_since_mono (since since' : Z) (rows : list Row) :
  since' <= since ->
  (visits_since (Some since) rows <= visits_since (Some since') rows)%nat.
Proof.
  intros Hle. unfold visits_since.
  induction rows as [| v rows IH]; [done |].
  rewrite !filter_cons.
  destruct (Date_of_Value (field v "visited_at")) as [t |]; simpl.
  - destruct (Z.leb_spec since t), (Z.leb_spec since' t);
      repeat case_decide; simpl in *; try done; lia.
  - repeat case_decide; simpl in *; try done; lia.
Qed.

Lemma visits_since_invalid (rows : list Row) : visits_since None rows = 0%nat.
Proof.
  unfold visits_since. induction rows as [| v rows IH]; [done |].
  rewrite filter_cons. case_decide as Hge; [| done].
  by destruct (Date_of_Value (field v "visited_at")).
Qed.

(** X15. [getVisitStats] always returns three counts, and neither the count
    of today nor the count of the week exceeds the total, whatever rows the
    backend hands back (also rows whose timestamp cannot be read).  When the
    read carries no rows (an error, null data) or the client is not
    configured, all three counts are 0. *)
Theorem getVisitStats_counts_are_bounded_by_the_total :
  forall (W : Type) (b : Backend W) (w : W) (rt : Runtime)
         (supabase : option Client),
    let x := run b (getVisitStats rt supabase) w in
    exists st : VisitStats,
      outcome x = Returned st
      /\ (today st <= total st)%nat
      /\ (thisWeek st <= total st)%nat
      /\ ((forall rows, ~ In (PgData (Some rows)) (visit_logs (trace x))) ->
          st = {| total := 0; today := 0; thisWeek := 0 |}).
Proof.
  intros W b w rt [c |] x; subst x; simpl.
  2: { eexists. by repeat split. }
  match goal with
  | |- context [pg_data ?r] => destruct r as [[rows |] | e]
  end; simpl; eexists; (split; [reflexivity |]); simpl;
    repeat split; try done; try apply visits_since_le.
  intros Hnone. destruct (Hnone rows). by left.
Qed.

(** X16. On a page whose zone keeps one offset, and with the two clock
    readings of a run less than six days apart, today's count never exceeds
    the week's count: every visit since local midnight is a visit of the
    last seven days. *)
Theorem getVisitStats_today_is_within_the_week :
  forall (W : Type) (b : Backend W) (w : W) (rt : Runtime)
         (supabase : option Client) (offset now now' : Z) (st : VisitStats),
    let x := run b (getVisitStats rt supabase) w in
    (forall t isUTC, LocalTZA rt t isUTC = offset) ->
    clock_readings (trace x) = [now; now'] ->
    now' <= now + 6 * msPerDay ->
    Z.abs (now' - 7 * msPerDay) <= maxTime ->
    outcome x = Returned st ->
    (today st <= thisWeek st)%nat.
Proof.
  intros W b w rt [c |] offset now now' st x Hzone Hclock Hclose Hrange Hout;
    subst x; simpl in *; [| discriminate Hclock].
  injection Hclock as Hnow Hnow'. injection Hout as <-. simpl.
  rewrite Hnow, Hnow'.
  rewrite Date_setHours0_Some, Date_addDays_Some.
  unfold local_midnight, UTC, LocalTime, MakeDate, Day. rewrite !Hzone.
  replace (now' + offset + -7 * msPerDay - offset) with (now' - 7 * msPerDay)
    by lia.
  rewrite (TimeClip_in_range (now' - 7 * msPerDay)) by done.
  match goal with
  | |- context [pg_data ?r] => destruct r as [[rows |] | e]
  end; simpl; try done.
  destruct (TimeClip _) as [midnight |] eqn:Hclip.
  - apply visits_since_mono.
    unfold TimeClip in Hclip. case_match; [| discriminate Hclip].
    injection Hclip as <-.
    pose proof (Z.mod_pos_bound (now + offset) msPerDay ltac:(done)).
    pose proof (Z.div_mod (now + offset) msPerDay ltac:(done)).
    unfold msPerDay in *. lia.
  - rewrite visits_since_invalid. lia.
Qed.

Module StoreFacts2.
Import Store.

Lemma select_all (rs : list Row) : select [] rs = rs.
Proof.
  unfold select. induction rs as [| r rs IH]; [done |].
  rewrite filter_cons. case_decide; [by rewrite IH | done].
Qed.

Lemma select_app (fs : list Filter) (rs rs' : list Row) :
  select fs (rs ++ rs') = select fs rs ++ select fs rs'.
Proof. apply filter_app. Qed.

Lemma length_update (updates : Row) (fs : list Filter) (rs : list Row) :
  length (update updates fs rs) = length rs.
Proof. apply length_fmap. Qed.

Lemma in_insert_sorted (le : Row -> Row -> bool) (r x : Row) (rs : list Row) :
  In x (insert_sorted le r rs) <-> x = r \/ In x rs.
Proof.
  induction rs as [| r' rs IH]; simpl; [intuition congruence |].
  destruct (le r r'); simpl; [intuition congruence |].
  rewrite IH. intuition congruence.
Qed.

(** Ordering the rows of a reply neither drops nor adds a row. *)
Lemma in_sort (o : option Order) (x : Row) (rs : list Row) :
  In x (sort o rs) <-> In x rs.
Proof.
  destruct o as [o |]; [| done]. unfold sort.
  induction rs as [| r rs IH]; [done |]. simpl.
  rewrite in_insert_sorted, IH. intuition congruence.
Qed.

(** An update that leaves alone the column a selection looks at selects
    the same rows for every other value of that column. *)
Lemma select_other_after_update (updates : Row) (col : string)
    (v v' : Value) (fs : list Filter) (rs : list Row) :
  updates !! col = None ->
  v <> v' ->
  select [Eq_ col v'] (update updates (Eq_ col v :: fs) rs)
  = select [Eq_ col v'] rs.
Proof.
  intros Hcol Hne. unfold select, update.
  induction rs as [| r rs IH]; [done |].
  rewrite fmap_cons, !filter_cons, IH. clear IH. simpl.
  destruct (bool_decide (r !! col = Some v)) eqn:Hr; simpl.
  - apply bool_decide_eq_true in Hr.
    destruct (matches_all fs r).
    + rewrite lookup_union_r by done. rewrite Hr.
      rewrite !bool_decide_eq_false_2 by congruence. simpl.
      by repeat case_decide.
    + rewrite Hr. rewrite !bool_decide_eq_false_2 by congruence. simpl.
      by repeat case_decide.
  - done.
Qed.

End StoreFacts2.

(** X13. On the in-memory store [unbanUser] keeps every ban record (none is
    deleted or added), leaves the ban records of every other user as they
    were, and touches no table but [user_bans] and [profiles]. *)
Theorem unbanUser_leaves_other_users_alone :
  forall (s : Store) (c : Client) (userId : string),
    let after := world (run Store.backend (unbanUser (Some c) userId) s) in
    length (Store.rows after "user_bans") = length (Store.rows s "user_bans")
    /\ (forall other,
          other <> userId ->
          Store.select [Eq_ "user_id" (VStr other)]
            (Store.rows after "user_bans")
          = Store.select [Eq_ "user_id" (VStr other)]
              (Store.rows s "user_bans"))
    /\ (forall table,
          table <> "user_bans" -> table <> "profiles" ->
          Store.rows after table = Store.rows s table).
Proof.
  intros s c userId after. subst after. rewrite unbanUser_world.
  split; [| split].
  - rewrite StoreFacts.rows_with_rows_ne by discriminate.
    rewrite StoreFacts.rows_with_rows. apply StoreFacts2.length_update.
  - intros other Hother.
    rewrite StoreFacts.rows_with_rows_ne by discriminate.
    rewrite StoreFacts.rows_with_rows.
    apply StoreFacts2.select_other_after_update; [reflexivity | congruence].
  - intros table Hbans Hprofiles.
    rewrite !StoreFacts.rows_with_rows_ne by congruence. reflexivity.
Qed.

(** X21. When the backend refuses the deactivation but accepts the update of
    the profile, [unbanUser] reports no error and clears the flag, while
    every ban record stays as it was: the caller cannot tell that the ban
    is still active. *)
Theorem unbanUser_can_succeed_with_the_ban_still_active :
  forall (s : Store) (c : Client) (userId : string),
    let x :=
      run (Faulty.backend (is_update_of "user_bans"))
        (unbanUser (Some c) userId) s in
    outcome x = Returned {| data := None; error := None |}
    /\ Store.rows (world x) "user_bans" = Store.rows s "user_bans"
    /\ Forall (fun p : Row => p !! "is_banned" = Some (VBool false))
         (Store.select [Eq_ "id" (VStr userId)]
            (Store.rows (world x) "profiles")).
Proof.
  intros s c userId x. subst x. rewrite unbanUser_run.
  cbn [outcome world handle Faulty.backend].
  rewrite !faulty_update_world.
  change (is_update_of "user_bans" (FromUpdate "user_bans" _ _)) with true.
  change (is_update_of "user_bans" (FromUpdate "profiles" _ _)) with false.
  cbv iota.
  split; [reflexivity |]. split.
  - rewrite StoreFacts.rows_with_rows_ne by discriminate. reflexivity.
  - rewrite StoreFacts.rows_with_rows. apply StoreFacts.cleared_flag.
Qed.

Lemma trackVisit_world (s : Store) (c : Client) (userId : option string) :
  world (run Store.backend (trackVisit (Some c) userId) s)
  = Store.with_rows s "site_visits"
      (Store.rows s "site_visits"
       ++ [<["user_id" := str_or VNull userId]>
           (<["page_path" := VStr (location s)]>
            (<["visited_at" := VTime (clock s)]> ∅))]).
Proof. reflexivity. Qed.

Lemma getVisitStats_total {W : Type} (b : Backend W) (rt : Runtime)
    (c : Client) (w : W) :
  exists st,
    outcome (run b (getVisitStats rt (Some c)) w) = Returned st
    /\ total st
       = length (rows_or_empty (handle b (FromSelect "site_visits" [] None) w).1).
Proof.
  simpl. eexists. split; [reflexivity |]. simpl.
  by match goal with
     | |- context [pg_data ?r] => destruct r as [[rows |] | e]
     end.
Qed.

(** X17. On the in-memory store every logged visit counts: after one
    [trackVisit], the total [getVisitStats] reports is one more than
    before. *)
Theorem trackVisit_adds_one_to_the_total :
  forall (s : Store) (rt : Runtime) (c : Client) (userId : option string),
    let after := world (run Store.backend (trackVisit (Some c) userId) s) in
    exists st st' : VisitStats,
      outcome (run Store.backend (getVisitStats rt (Some c)) s) = Returned st
      /\ outcome (run Store.backend (getVisitStats rt (Some c)) after)
         = Returned st'
      /\ total st' = S (total st).
Proof.
  intros s rt c userId after.
  destruct (getVisitStats_total Store.backend rt c s) as (st & Hst & Htotal).
  destruct (getVisitStats_total Store.backend rt c after)
    as (st' & Hst' & Htotal').
  exists st, st'. split; [exact Hst |]. split; [exact Hst' |].
  rewrite Htotal, Htotal'. subst after. rewrite trackVisit_world.
  cbn [handle Store.backend Store.answer fst rows_or_empty Store.sort].
  rewrite !StoreFacts2.select_all, StoreFacts.rows_with_rows.
  rewrite length_app. simpl. lia.
Qed.

Lemma addMaterial_world (s : Store) (c : Client)
    (title description imageUrl telegramLink category : Value) :
  let row : Row :=
    <["title" := title]>
    (<["description" := description]>
     (<["image_url" := imageUrl]>
      (<["telegram_link" := telegramLink]>
       (<["category" := category]>
        (<["created_by" := str_or VUndefined (user_id <$> current s)]>
         (<["status" := VStr "published"]> ∅)))))) in
  let x :=
    run Store.backend
      (addMaterial (Some c) title description imageUrl telegramLink category)
      s in
  world x = Store.with_rows s "materials" (Store.rows s "materials" ++ [row])
  /\ inserted_rows "materials" (trace x) = [row]
  /\ row !! "status" = Some (VStr "published").
Proof. repeat split. Qed.

Lemma getMaterials_store (s : Store) (c : Client) :
  outcome (run Store.backend (getMaterials (Some c)) s)
  = Returned
      (Store.sort (Some {| order_by := "created_at"; ascending := false |})
         (Store.select [Eq_ "status" (VStr "published")]
            (Store.rows s "materials")))
  /\ outcome (run Store.backend (getAllMaterials (Some c)) s)
     = Returned
         (Store.sort (Some {| order_by := "created_at"; ascending := false |})
            (Store.select [] (Store.rows s "materials"))).
Proof. split; reflexivity. Qed.

(** X18. On the in-memory store a material added with [addMaterial] is
    listed at once, by [getMaterials] as well as by [getAllMaterials]: the
    row it inserts always has status ['published'], which is the status
    [getMaterials] asks for. *)
Theorem addMaterial_is_listed_at_once :
  forall (s : Store) (c : Client)
         (title description imageUrl telegramLink category : Value),
    let added :=
      run Store.backend
        (addMaterial (Some c) title description imageUrl telegramLink category)
        s in
    exists (row : Row) (published every : list Row),
      inserted_rows "materials" (trace added) = [row]
      /\ outcome (run Store.backend (getMaterials (Some c)) (world added))
         = Returned published
      /\ outcome (run Store.backend (getAllMaterials (Some c)) (world added))
         = Returned every
      /\ In row published
      /\ In row every.
Proof.
  intros s c title description imageUrl telegramLink category added.
  destruct (addMaterial_world s c title description imageUrl telegramLink
              category) as (Hworld & Hrow & Hstatus).
  subst added. rewrite Hworld. eexists _, _, _.
  split; [exact Hrow |].
  split; [apply getMaterials_store |]. split; [apply getMaterials_store |].
  rewrite !StoreFacts2.in_sort, StoreFacts.rows_with_rows.
  rewrite StoreFacts2.select_all, StoreFacts2.select_app.
  split; [| apply in_or_app; right; by left].
  apply in_or_app. right. unfold Store.select.
  rewrite filter_cons, decide_True; [by left |].
  unfold Store.matches_all, Store.matches. simpl.
  by rewrite Hstatus.
Qed.

Lemma banUser_store_world (s : Store) (rt : Runtime) (c : Client)
    (userId reason : string) (banType : option string) (duration : Duration)
    (res : Result (list Row)) :
  let x := run Store.backend
             (banUser rt (Some c) userId reason banType duration) s in
  outcome x = Returned res ->
  error res = None
  /\ exists banUntil,
       world x
       = Store.with_rows
           (Store.with_rows s "user_bans"
              (Store.rows s "user_bans"
               ++ [ban_record userId (current s) reason banType banUntil]))
           "profiles"
           (Store.update {["is_banned" := VBool true]}
              [Eq_ "id" (VStr userId)] (Store.rows s "profiles")).
Proof.
  intros x. subst x. unfold banUser.
  destruct (bool_decide (banType = Some "temporary") && Duration_truthy duration).
  - cbn [run bind await getCurrentUser handle Store.backend Store.answer
           Store.signed_in auth_data user fst snd outcome world].
    match goal with
    | |- context [toISOString ?d] => destruct d as [t |]
    end.
    + cbn [run bind await toISOString handle Store.backend Store.answer
             fst snd outcome world pg_error].
      intros [= <-]. split; [reflexivity |]. exists (VTime t).
      rewrite StoreFacts.rows_with_rows_ne by discriminate. reflexivity.
    + cbn [run bind toISOString outcome]. discriminate.
  - cbn [run bind await getCurrentUser handle Store.backend Store.answer
           Store.signed_in auth_data user fst snd outcome world pg_error].
    intros [= <-]. split; [reflexivity |]. exists VNull.
    rewrite StoreFacts.rows_with_rows_ne by discriminate. reflexivity.
Qed.

Lemma flagged_profiles (userId : string) (rs : list Row) :
  Forall (fun p : Row => p !! "is_banned" = Some (VBool true))
    (Store.select [Eq_ "id" (VStr userId)]
       (Store.update {["is_banned" := VBool true]} [Eq_ "id" (VStr userId)] rs)).
Proof.
  unfold Store.select, Store.update. apply Forall_forall. intros p Hp.
  apply list_elem_of_filter in Hp as [Hsel Hp].
  apply list_elem_of_fmap in Hp as (r & -> & _).
  destruct (Store.matches_all [Eq_ "id" (VStr userId)] r) eqn:Hr;
    [| congruence].
  apply lookup_union_Some_l, lookup_singleton_eq.
Qed.

Lemma ban_record_is_active (userId : string) (admin : option User)
    (reason : string) (banType : option string) (banUntil : Value) :
  Store.matches_all
    [Eq_ "user_id" (VStr userId); Eq_ "is_active" (VBool true)]
    (ban_record userId admin reason banType banUntil) = true.
Proof.
  unfold Store.matches_all, Store.matches, forallb.
  rewrite !bool_decide_eq_true_2 by reflexivity. reflexivity.
Qed.

(** X12. On the in-memory store, whenever [banUser] returns, the user has
    one more active ban than before and every profile of the user is
    flagged; a following [unbanUser] leaves the user with no active ban and
    with the flag cleared, and keeps the record of the ban: the table of
    bans is one row longer than before the ban. *)
Theorem unbanUser_undoes_banUser_and_keeps_the_record :
  forall (s : Store) (rt : Runtime) (c : Client) (userId reason : string)
         (banType : option string) (duration : Duration)
         (res : Result (list Row)),
    let banned :=
      run Store.backend (banUser rt (Some c) userId reason banType duration) s in
    let unbanned :=
      run Store.backend (unbanUser (Some c) userId) (world banned) in
    let active := [Eq_ "user_id" (VStr userId); Eq_ "is_active" (VBool true)] in
    let own := [Eq_ "id" (VStr userId)] in
    outcome banned = Returned res ->
    error res = None
    /\ length (Store.select active (Store.rows (world banned) "user_bans"))
       = S (length (Store.select active (Store.rows s "user_bans")))
    /\ Forall (fun p : Row => p !! "is_banned" = Some (VBool true))
         (Store.select own (Store.rows (world banned) "profiles"))
    /\ Store.select active (Store.rows (world unbanned) "user_bans") = []
    /\ Forall (fun p : Row => p !! "is_banned" = Some (VBool false))
         (Store.select own (Store.rows (world unbanned) "profiles"))
    /\ length (Store.rows (world unbanned) "user_bans")
       = S (length (Store.rows s "user_bans")).
Proof.
  intros s rt c userId reason banType duration res banned unbanned active own
    Hres.
  destruct (banUser_store_world s rt c userId reason banType duration res Hres)
    as (Herr & banUntil & Hworld).
  subst unbanned. fold banned in Hworld. rewrite unbanUser_world. fold active.
  rewrite Hworld.
  rewrite !StoreFacts.rows_with_rows.
  rewrite !(StoreFacts.rows_with_rows_ne _ "profiles" "user_bans")
    by discriminate.
  rewrite !StoreFacts.rows_with_rows.
  split; [exact Herr |]. split; [| split; [| split; [| split]]].
  - rewrite StoreFacts2.select_app, length_app.
    unfold Store.select at 2.
    rewrite filter_cons, decide_True by apply ban_record_is_active.
    simpl. lia.
  - apply flagged_profiles.
  - apply StoreFacts.deactivated_none_active.
  - apply StoreFacts.cleared_flag.
  - rewrite StoreFacts2.length_update, length_app. simpl. lia.
Qed.

(** X3 at a concrete input: [alice] mistypes her password. *)
Lemma signIn_stops_at_rejected_credentials_witness :
  let s := Examples.store [] [] None in
  let c := createClient "https://example.supabase.co" "anon-key" in
  let rw :=
    handle Store.backend (AuthSignInWithPassword "alice@example.org" "secrte")
      s in
  credentials_accepted rw.1 = false
  /\ run Store.backend
       (signIn Examples.utc (Some c) "alice@example.org" "secrte") s
     = {| outcome := Returned {| data := Some (auth_data rw.1);
                                 error := auth_error rw.1 |};
          world := rw.2;
          trace := [Ev (AuthSignInWithPassword "alice@example.org" "secrte")
                      rw.1] |}.
Proof.
  intros s c rw. split; [reflexivity |].
  apply (signIn_stops_at_rejected_credentials Store Store.backend s
           Examples.utc c "alice@example.org" "secrte").
  reflexivity.
Defined.

(** X11 at a concrete input: a temporary ban whose day-count reads
    "soon". *)
Lemma banUser_invalid_day_count_writes_nothing_witness :
  let s := Examples.store [] [] None in
  let c := createClient "https://example.supabase.co" "anon-key" in
  let x :=
    run Store.backend
      (banUser Examples.utc (Some c) "alice" "spam" (Some "temporary")
         (DurStr "soon")) s in
  outcome x = Thrown (RangeError "Invalid time value")
  /\ calls (trace x) = [AuthGetUser; DateNow].
Proof.
  intros s c x.
  apply (banUser_invalid_day_count_writes_nothing Store Store.backend s
           Examples.utc c "alice" "spam" (DurStr "soon")); reflexivity.
Defined.

(** X12 at a concrete input: [alice] is banned for seven days and then
    unbanned. *)
Lemma unbanUser_undoes_banUser_and_keeps_the_record_witness :
  let s := Examples.store [] [] None in
  let c := createClient "https://example.supabase.co" "anon-key" in
  let banned :=
    run Store.backend
      (banUser Examples.utc (Some c) "alice" "spam" (Some "temporary")
         (DurNum 7 I)) s in
  let unbanned := run Store.backend (unbanUser (Some c) "alice") (world banned) in
  outcome banned = Returned {| data := None; error := None |}
  /\ Store.select [Eq_ "user_id" (VStr "alice"); Eq_ "is_active" (VBool true)]
       (Store.rows (world unbanned) "user_bans") = []
  /\ length (Store.rows (world unbanned) "user_bans") = 1%nat.
Proof.
  intros s c banned unbanned.
  destruct (unbanUser_undoes_banUser_and_keeps_the_record s Examples.utc c
              "alice" "spam" (Some "temporary") (DurNum 7 I)
              {| data := None; error := None |} eq_refl)
    as (_ & _ & _ & Hnone & _ & Hkept).
  split; [reflexivity |]. split; [exact Hnone | exact Hkept].
Defined.

(** X16 at a concrete input: a page in UTC at 2024-04-03T12:00:00Z, with
    visits around midnight and around the start of the week. *)
Lemma getVisitStats_today_is_within_the_week_witness :
  let log := [1712102400000; 1712102399999; 1711540800000; 1711540799999] in
  let x :=
    run Store.backend (getVisitStats Examples.utc Examples.client)
      (Examples.store [] (Examples.visit <$> log) None) in
  outcome x = Returned {| total := 4; today := 1; thisWeek := 3 |}
  /\ (1 <= 3)%nat.
Proof.
  intros log x. split; [reflexivity |].
  apply (getVisitStats_today_is_within_the_week Store Store.backend
           (Examples.store [] (Examples.visit <$> log) None) Examples.utc
           Examples.client 0 Examples.noon Examples.noon
           {| total := 4; today := 1; thisWeek := 3 |}).
  - reflexivity.
  - reflexivity.
  - vm_compute. discriminate.
  - vm_compute. discriminate.
  - reflexivity.
Defined.

Lemma pretty_Z_no_dot (z : Z) :
  all_chars (fun c => negb (is_dot c)) (pretty z) = true.
Proof.
  assert (Hdigit : forall c, is_digit c = true -> negb (is_dot c) = true).
  { intros c. destruct c as [[] [] [] [] [] [] [] []]; try discriminate;
      reflexivity. }
  unfold pretty, pretty_Z. destruct z as [| p | p]; [done | |].
  - apply (StringFacts.all_chars_impl is_digit); [exact Hdigit |].
    apply (StringFacts.pretty_N_digits (N.pos p)).
  - change (all_chars (fun c => negb (is_dot c)) (String "-" (pretty p)) = true).
    simpl. apply (StringFacts.all_chars_impl is_digit); [exact Hdigit |].
    apply (StringFacts.pretty_N_digits (N.pos p)).
Qed.

(** Two strings that agree up to and after their first dot. *)
Lemma first_dot_split (a b x y : string) :
  all_chars (fun c => negb (is_dot c)) a = true ->
  all_chars (fun c => negb (is_dot c)) b = true ->
  a +:+ "." +:+ x = b +:+ "." +:+ y ->
  a = b /\ x = y.
Proof.
  revert b. induction a as [| c a IH]; intros [| d b] Ha Hb Heq.
  - by injection Heq.
  - injection Heq as <- _. discriminate Hb.
  - injection Heq as -> _. discriminate Ha.
  - injection Heq as -> Heq. simpl in Ha, Hb.
    apply andb_true_iff in Ha as [_ Ha]. apply andb_true_iff in Hb as [_ Hb].
    destruct (IH b Ha Hb Heq) as [-> ->]. done.
Qed.

(** X22. [uploadAvatar] uploads only into ['profile-avatars'], overwriting,
    under the name made of the id of the user [auth.getUser] reported, a
    clock reading of the run and the extension of the file.  For one user,
    two such names are the same only for the same clock reading and the same
    extension, so an upload replaces an earlier avatar of that user only
    then. *)
Theorem uploadAvatar_names_do_not_collide :
  forall (W : Type) (b : Backend W) (w : W) (supabase : option Client)
         (file : File),
    let x := run b (uploadAvatar supabase file) w in
    Forall (fun c =>
              is_upload c = true ->
              exists u now,
                In (Some u) (reported_users (trace x))
                /\ In now (clock_readings (trace x))
                /\ c = StorageUpload "profile-avatars" (avatar_name u now file)
                         file true)
      (calls (trace x))
    /\ (forall u now now' file',
          avatar_name u now file = avatar_name u now' file' ->
          now = now'
          /\ FileName.split_pop "" (name file)
             = FileName.split_pop "" (name file')).
Proof.
  intros W b w supabase file x. split.
  - subst x. destruct supabase as [c |]; simpl; [| constructor].
    unfold reported_users, clock_readings.
    repeat crack; repeat constructor; try discriminate.
    all: intros _; do 2 eexists;
      (split; [left; reflexivity |]); split; [left; reflexivity | reflexivity].
  - intros u now now' file' Heq. unfold avatar_name in Heq.
    apply (inj (String.app (user_id u))) in Heq.
    apply (inj (String.app "-")) in Heq.
    apply first_dot_split in Heq as [Hnow Hext]; try apply pretty_Z_no_dot.
    split; [by apply (inj pretty) | done].
Qed.

(** X23. On the in-memory store the history of a user keeps a ban that was
    lifted: after [banUser] has returned and [unbanUser] has run,
    [getUserBanHistory] lists a record of that user with the reason given
    and with [is_active] false. *)
Theorem ban_history_keeps_a_lifted_ban :
  forall (s : Store) (rt : Runtime) (c : Client) (userId reason : string)
         (banType : option string) (duration : Duration)
         (res : Result (list Row)),
    let banned :=
      run Store.backend (banUser rt (Some c) userId reason banType duration) s in
    let unbanned :=
      run Store.backend (unbanUser (Some c) userId) (world banned) in
    outcome banned = Returned res ->
    exists (record : Row) (history : list Row),
      outcome (run Store.backend (getUserBanHistory (Some c) userId)
                 (world unbanned))
      = Returned history
      /\ In record history
      /\ record !! "user_id" = Some (VStr userId)
      /\ record !! "reason" = Some (VStr reason)
      /\ record !! "is_active" = Some (VBool false).
Proof.
  intros s rt c userId reason banType duration res banned unbanned Hres.
  destruct (banUser_store_world s rt c userId reason banType duration res Hres)
    as (_ & banUntil & Hworld).
  fold banned in Hworld.
  exists ({["is_active" := VBool false]}
          ∪ ban_record userId (current s) reason banType banUntil).
  eexists. split; [reflexivity |].
  split; [| split; [| split]]; try reflexivity.
  cbn [handle Store.backend Store.answer fst pg_data default id].
  rewrite StoreFacts2.in_sort.
  subst unbanned. rewrite unbanUser_world, Hworld.
  rewrite StoreFacts.rows_with_rows_ne by discriminate.
  rewrite StoreFacts.rows_with_rows.
  rewrite StoreFacts.rows_with_rows_ne by discriminate.
  rewrite StoreFacts.rows_with_rows.
  unfold Store.update. rewrite fmap_app, StoreFacts2.select_app.
  apply in_or_app. right. rewrite list_fmap_singleton.
  rewrite ban_record_is_active.
  unfold Store.select. rewrite filter_cons, decide_True; [by left |].
  unfold Store.matches_all, Store.matches, forallb.
  rewrite lookup_union_r by reflexivity.
  rewrite bool_decide_eq_true_2 by reflexivity. reflexivity.
Qed.

(** X23 at a concrete input: [alice] is banned for spam and unbanned. *)
Lemma ban_history_keeps_a_lifted_ban_witness :
  let s := Examples.store [] [] None in
  let c := createClient "https://example.supabase.co" "anon-key" in
  let banned :=
    run Store.backend
      (banUser Examples.utc (Some c) "alice" "spam" (Some "permanent") DurNull)
      s in
  let unbanned := run Store.backend (unbanUser (Some c) "alice") (world banned) in
  outcome banned = Returned {| data := None; error := None |}
  /\ exists (record : Row) (history : list Row),
       outcome (run Store.backend (getUserBanHistory (Some c) "alice")
                  (world unbanned))
       = Returned history
       /\ In record history
       /\ record !! "user_id" = Some (VStr "alice")
       /\ record !! "reason" = Some (VStr "spam")
       /\ record !! "is_active" = Some (VBool false).
Proof.
  intros s c banned unbanned. split; [reflexivity |].
  apply (ban_history_keeps_a_lifted_ban s Examples.utc c "alice" "spam"
           (Some "permanent") DurNull {| data := None; error := None |}).
  reflexivity.
Defined.
